(** * facedetection.py: face detection results turned into Akamai crop URLs

    A shallow embedding of [src/facedetection.py].  Python functions become
    Rocq functions of the same name; a call that may raise returns a
    [result]; the collaborators the script reaches through libraries (file
    system, HTTP, credential lookup, image decoding) are fields of a
    [World] record that is passed explicitly. *)

From Stdlib Require Import ZArith String Ascii List Lia Bool.
From stdpp Require Import base option list gmap strings pretty.

Open Scope string_scope.
Open Scope list_scope.
Open Scope Z_scope.

(** ** Python runtime fragments *)

Module Py.

(** The exception classes that can reach a caller of this script: the
    built-in ones and the two classes the script itself declares
    ([MSProjectoxfordDetectionError], [AllDetectionError]). *)
Inductive exception : Type :=
| ValueError (msg : string)
| KeyError (key : string)
| TypeError (msg : string)
| AttributeError (msg : string)
| OSError (msg : string)
| MSProjectoxfordDetectionError (msg : string)
| AllDetectionError (msg : string).

(** [true] on the classes declared by a [class ...(Exception)] statement
    of facedetection.py, [false] on Python's and the libraries' own. *)
Definition declared_by_script (e : exception) : bool :=
  match e with
  | MSProjectoxfordDetectionError _ | AllDetectionError _ => true
  | _ => false
  end.

Inductive result (A : Type) : Type :=
| Ok (a : A)
| Raise (e : exception).
Arguments Ok {A} a.
Arguments Raise {A} e.

Definition bind {A B} (m : result A) (k : A -> result B) : result B :=
  match m with
  | Ok a => k a
  | Raise e => Raise e
  end.

Definition is_ok {A} (m : result A) : bool :=
  match m with Ok _ => true | Raise _ => false end.

(** [[f(x) for x in l]] where [f] may raise: the first exception, in
    iteration order, aborts the loop. *)
Fixpoint for_each {A B} (f : A -> result B) (l : list A) : result (list B) :=
  match l with
  | [] => Ok []
  | a :: l' =>
      bind (f a) (fun b => bind (for_each f l') (fun bs => Ok (b :: bs)))
  end.

(** A generator whose body is a loop over [l] yielding the items of
    [f x], drained by a list comprehension. *)
Definition yield_from_each {A B} (f : A -> result (list B)) (l : list A)
  : result (list B) :=
  bind (for_each f l) (fun bss => Ok (concat bss)).

(** [d[k]]: raises [KeyError] on a missing key. *)
Definition getitem {V} (d : gmap string V) (k : string) : result V :=
  match d !! k with
  | Some v => Ok v
  | None => Raise (KeyError k)
  end.

(** [d.get(k, dflt)] *)
Definition get {V} (d : gmap string V) (k : string) (dflt : V) : V :=
  default dflt (d !! k).

(** [min(l)] and [max(l)] on a list of integers: the first item is the
    candidate, every later item that compares strictly smaller (larger)
    replaces it; an empty argument raises [ValueError]. *)
Definition min (l : list Z) : result Z :=
  match l with
  | [] => Raise (ValueError "min() arg is an empty sequence")
  | x :: xs => Ok (foldl (fun best item => if item <? best then item else best) x xs)
  end.

Definition max (l : list Z) : result Z :=
  match l with
  | [] => Raise (ValueError "max() arg is an empty sequence")
  | x :: xs => Ok (foldl (fun best item => if best <? item then item else best) x xs)
  end.

(** ['{}'.format(n)] for an integer [n]. *)
Definition str (n : Z) : string := pretty n.

(** Truth value of an optional string ([None] and [''] are false). *)
Definition truthy (s : option string) : bool :=
  match s with
  | None => false
  | Some EmptyString => false
  | Some _ => true
  end.

Definition hex_digit (n : N) : ascii :=
  match n with
  | 0 => "0" | 1 => "1" | 2 => "2" | 3 => "3" | 4 => "4" | 5 => "5"
  | 6 => "6" | 7 => "7" | 8 => "8" | 9 => "9" | 10 => "a" | 11 => "b"
  | 12 => "c" | 13 => "d" | 14 => "e" | _ => "f"
  end%N%char.

Fixpoint contains (c : ascii) (s : string) : bool :=
  match s with
  | EmptyString => false
  | String c' s' => Ascii.eqb c c' || contains c s'
  end.

(** The double quote (code 34) and the backslash (code 92). *)
Definition dquote : ascii := ascii_of_N 34.
Definition backslash : ascii := ascii_of_N 92.
Definition squote : ascii := ascii_of_N 39.

(** [repr(b)] for a [bytes] object, which is what ['{}'.format(b)]
    produces: a [b] prefix, a quote (double only when the bytes hold a
    single quote and no double quote), backslash escapes for the quote,
    the backslash, tab, newline and carriage return, and a backslash,
    [x] and two hexadecimal digits for every other byte outside the
    printable ASCII range. *)
Definition repr_byte (quote c : ascii) : string :=
  let n := N_of_ascii c in
  if Ascii.eqb c quote || Ascii.eqb c backslash
  then String backslash (String c EmptyString)
  else if (n =? 9)%N then String backslash "t"
  else if (n =? 10)%N then String backslash "n"
  else if (n =? 13)%N then String backslash "r"
  else if (n <? 32)%N || (127 <=? n)%N then
    String backslash (String "x"%char
      (String (hex_digit (n / 16)) (String (hex_digit (n mod 16)) EmptyString)))
  else String c EmptyString.

Fixpoint repr_bytes_body (quote : ascii) (b : string) : string :=
  match b with
  | EmptyString => EmptyString
  | String c b' => repr_byte quote c +:+ repr_bytes_body quote b'
  end.

Definition repr_bytes (b : string) : string :=
  let quote : ascii :=
    if contains squote b && negb (contains dquote b)
    then dquote else squote in
  "b" +:+ String quote (repr_bytes_body quote b) +:+ String quote EmptyString.

End Py.

Import Py.

Notation "'do' x <- m ; k" := (Py.bind m (fun x => k))
  (at level 10, x name, m at level 100, k at level 200).

(** ** [urllib.parse.urlparse], as far as the script looks at its result

    The script reads only the [scheme] attribute.  The model follows
    CPython's [urlsplit]: leading C0 control characters and spaces are
    stripped, tab, line feed and carriage return are removed, and the text
    before the first colon is the scheme when that text is not empty,
    starts with an ASCII letter and holds scheme characters only; it is
    returned in lower case.  A network location with an unmatched square
    bracket raises [ValueError]; a bracketed host is taken to be a
    well-formed IP literal. *)

Module urllib_parse.

Definition scheme_chars : string :=
  "abcdefghijklmnopqrstuvwxyzABCDEFGHIJKLMNOPQRSTUVWXYZ0123456789+-.".

Definition is_ascii_alpha (c : ascii) : bool :=
  let n := N_of_ascii c in
  ((65 <=? n) && (n <=? 90) || (97 <=? n) && (n <=? 122))%N.

Definition lower_char (c : ascii) : ascii :=
  let n := N_of_ascii c in
  if ((65 <=? n) && (n <=? 90))%N then ascii_of_N (n + 32) else c.

Fixpoint lower (s : string) : string :=
  match s with
  | EmptyString => EmptyString
  | String c s' => String (lower_char c) (lower s')
  end.

Fixpoint all_in (chars s : string) : bool :=
  match s with
  | EmptyString => true
  | String c s' => Py.contains c chars && all_in chars s'
  end.

(** [url.lstrip(_WHATWG_C0_CONTROL_OR_SPACE)] *)
Fixpoint lstrip_c0 (url : string) : string :=
  match url with
  | String c url' => if (N_of_ascii c <=? 32)%N then lstrip_c0 url' else url
  | EmptyString => EmptyString
  end.

(** [url.replace(b, '')] for [b] in tab, line feed, carriage return. *)
Fixpoint remove_unsafe (url : string) : string :=
  match url with
  | EmptyString => EmptyString
  | String c url' =>
      let n := N_of_ascii c in
      if ((n =? 9) || (n =? 10) || (n =? 13))%N then remove_unsafe url'
      else String c (remove_unsafe url')
  end.

(** [(url[:i], url[i+1:])] for [i = url.find(':')], [None] when there is
    no colon. *)
Fixpoint split_colon (url : string) : option (string * string) :=
  match url with
  | EmptyString => None
  | String c url' =>
      if Ascii.eqb c ":"%char then Some (EmptyString, url')
      else match split_colon url' with
           | Some (before, after) => Some (String c before, after)
           | None => None
           end
  end.

(** The network location: the text up to the first of [/], [?], [#]. *)
Fixpoint netloc_of (url : string) : string :=
  match url with
  | EmptyString => EmptyString
  | String c url' =>
      if Py.contains c "/?#" then EmptyString else String c (netloc_of url')
  end.

Definition brackets_match (netloc : string) : bool :=
  Bool.eqb (Py.contains "["%char netloc) (Py.contains "]"%char netloc).

Record ParseResult : Type := { scheme : string; rest : string }.

Definition split_scheme (url : string) : ParseResult :=
  match split_colon url with
  | Some (String c _ as before, after) =>
      if is_ascii_alpha c && all_in scheme_chars before
      then {| scheme := lower before; rest := after |}
      else {| scheme := EmptyString; rest := url |}
  | _ => {| scheme := EmptyString; rest := url |}
  end.

Definition urlparse (uri : string) : Py.result ParseResult :=
  let url := remove_unsafe (lstrip_c0 uri) in
  let parsed := split_scheme url in
  match rest parsed with
  | String "/" (String "/" after) =>
      if brackets_match (netloc_of after) then Ok parsed
      else Raise (ValueError "Invalid IPv6 URL")
  | _ => Ok parsed
  end.

End urllib_parse.

(** ** Locator classification (facedetection.py, lines 27-35) *)

Definition is_localfile (uri : string) : Py.result bool :=
  do url_obj <- urllib_parse.urlparse uri;
  Ok (String.eqb (urllib_parse.scheme url_obj) EmptyString).

Definition is_gcs_image_uri (uri : string) : Py.result bool :=
  do url_obj <- urllib_parse.urlparse uri;
  Ok (String.eqb (urllib_parse.scheme url_obj) "gs").

(** ** The [furl] URL object, as far as the script uses it

    [furl.furl(uri)] parses a URL into an object whose [args] attribute is
    an ordered multi-dictionary of the query parameters; [obj.url]
    serialises the object again.  Parsing and serialising belong to the
    library and are fields of [World]; item assignment on [args] is
    modelled here: the first entry of the key is overwritten in place and
    later entries of the key are dropped, a new key is appended. *)

Module furl.

Record t : Type := { base : string; args : list (string * string) }.

Fixpoint remove_key (k : string) (l : list (string * string)) : list (string * string) :=
  match l with
  | [] => []
  | (k', v') :: l' =>
      if String.eqb k k' then remove_key k l' else (k', v') :: remove_key k l'
  end.

Fixpoint setitem (l : list (string * string)) (k v : string) : list (string * string) :=
  match l with
  | [] => [(k, v)]
  | (k', v') :: l' =>
      if String.eqb k k' then (k, v) :: remove_key k l'
      else (k', v') :: setitem l' k v
  end.

Fixpoint getitem (l : list (string * string)) (k : string) : option string :=
  match l with
  | [] => None
  | (k', v') :: l' => if String.eqb k k' then Some v' else getitem l' k
  end.

(** [obj.args[k] = v] *)
Definition set_arg (obj : t) (k v : string) : t :=
  {| base := base obj; args := setitem (args obj) k v |}.

End furl.

(** ** Data model *)

Record Coord : Type := { x : Z; y : Z }.

(** Wire format of the Vision API answer, restricted to the keys the
    script reads: every level is a JSON object, hence a dictionary. *)
Abbreviation vertex := (gmap string Z).
Abbreviation bounding_poly := (gmap string (list vertex)).
Abbreviation face_annotation := (gmap string bounding_poly).
Abbreviation annotate_response := (gmap string (list face_annotation)).
Abbreviation vision_data := (gmap string (list annotate_response)).

(** Wire format of the Project Oxford answer: a list of faces, each a
    dictionary holding a [faceRectangle] dictionary of integers. *)
Abbreviation face_rectangle := (gmap string Z).
Abbreviation ms_data := (list (gmap string face_rectangle)).

(** What a provider keeps in the [data] attribute of its result. *)
Inductive raw_data : Type :=
| VisionData (d : vision_data)
| MSData (d : ms_data)
| ImageSize (size : Z * Z).

(** [GoogleVisionAPIFaceDetectionResult], [MSProjectoxfordDetectionResult]
    and [AllDetectionResult] have the same three attributes; one record
    stands for the three classes. *)
Record DetectionResult : Type :=
  { uri : string; coords : list Coord; data : raw_data }.

(** A [requests] response. [json] is what [res.json()] returns: the
    decoded body, or [None] when the body is not JSON of the expected
    shape and the call raises. *)
Record Response : Type :=
  { status_code : Z; reason : string; content : string;
    json : option ms_data }.

(** [googleapiclient.http.HttpRequest]: [execute] is what calling the
    method of that name returns. *)
Record HttpRequest : Type := { execute : Py.result vision_data }.

(** The body passed to [images().annotate]. *)
Inductive image_field : Type :=
| Content (base64 : string)
| GcsImageUri (url : string).

Record annotate_request : Type :=
  { image : image_field; feature_type : string; maxResults : Z }.

(** The body passed to [requests.post]. *)
Inductive post_body : Type :=
| Bytes (b : string)
| Text (s : string).

(** ** Collaborators *)

Record World : Type := {
  furl_parse : string -> Py.result furl.t;
  furl_url : furl.t -> string;
  (** [open(path, 'rb').read()] *)
  read_file : string -> Py.result string;
  b64encode : string -> string;
  json_dumps : gmap string string -> string;
  (** [oauth2client] and [googleapiclient.discovery.build] *)
  get_application_default : Py.result unit;
  discovery_build : Py.result unit;
  annotate : list annotate_request -> HttpRequest;
  requests_post : string -> gmap string string -> post_body -> Py.result Response;
  requests_get : string -> Py.result Response;
  (** [PIL.Image.open(fp).size] on the bytes of [fp] *)
  image_size : string -> Py.result (Z * Z);
  (** [pit.Pit.get('facedetection.face.ms', ...)] *)
  pit_get : Py.result (gmap string string);
}.

(** ** AkamaiCrop (lines 91-163) *)

Module AkamaiCrop.

Definition create_rect (coords : list Coord) : Py.result (Coord * Coord) :=
  let x_points := map x coords in
  let y_points := map y coords in
  do min_x <- Py.min x_points;
  do min_y <- Py.min y_points;
  let min_coord := {| x := min_x; y := min_y |} in
  do max_x <- Py.max x_points;
  do max_y <- Py.max y_points;
  let max_coord := {| x := max_x; y := max_y |} in
  Ok (min_coord, max_coord).

(** The keyword arguments of [build_uri] with their defaults. *)
Record kwds : Type := {
  width : string; height : string; composite_to : string;
  bg_url : option string; bg_width : string; bg_height : string }.

Definition defaults : kwds :=
  {| width := "*"; height := "*"; composite_to := "*.*";
     bg_url := None; bg_width := "*"; bg_height := "*" |}.

(** ['{}:{};{},{}'.format(...)] on the four integers of the crop. *)
Definition crop_value (start end_ : Coord) : string :=
  Py.str (x end_ - x start) +:+ ":" +:+ Py.str (y end_ - x end_) +:+ ";"
    +:+ Py.str (x start) +:+ "," +:+ Py.str (y start).

Definition build_uri (W : World) (uri : string) (start end_ : Coord) (k : kwds)
  : Py.result string :=
  do furl_obj <- furl_parse W uri;
  let furl_obj := furl.set_arg furl_obj "crop" (crop_value start end_) in
  let furl_obj := furl.set_arg furl_obj "resize" (width k +:+ ":" +:+ height k) in
  let akamai_url := furl_url W furl_obj in
  match bg_url k with
  | Some (String _ _ as bg) =>
      let furl_obj := furl.set_arg furl_obj "composite-to" (composite_to k) in
      do bg_furl_obj <- furl_parse W bg;
      let bg_furl_obj :=
        furl.set_arg bg_furl_obj "resize" (bg_width k +:+ ":" +:+ bg_height k) in
      Ok (akamai_url +:+ ("|" +:+ furl_url W bg_furl_obj))
  | _ => Ok akamai_url
  end.

Definition call (W : World) (detection_result : DetectionResult) (k : kwds)
  : Py.result string :=
  do rect <- create_rect (coords detection_result);
  let '(start, end_) := rect in
  build_uri W (uri detection_result) start end_ k.

End AkamaiCrop.

(** ** Google Vision API provider (lines 166-256) *)

Module GoogleVisionAPIFaceDetectionResultFactory.

Definition get_coords (data : vision_data) : Py.result (list Coord) :=
  Py.yield_from_each (fun response : annotate_response =>
    Py.yield_from_each (fun annotation : face_annotation =>
      Py.yield_from_each (fun name : string =>
        do poly <- Py.getitem annotation name;
        do vertices <- Py.getitem poly "vertices";
        Ok (map (fun vertice : vertex =>
                   {| x := Py.get vertice "x" 0; y := Py.get vertice "y" 0 |})
                vertices))
        ["fdBoundingPoly"; "boundingPoly"])
      (Py.get response "faceAnnotations" []))
    (Py.get data "responses" []).

Definition call (uri : string) (data : vision_data) : Py.result DetectionResult :=
  do coords <- get_coords data;
  Ok {| uri := uri; coords := coords; data := VisionData data |}.

End GoogleVisionAPIFaceDetectionResultFactory.

Definition get_encoded_image (W : World) (path : string) : Py.result string :=
  do buf <- read_file W path;
  Ok (b64encode W buf).

Module GoogleVisionAPIFaceDetection.

(** The instance attributes set by [__init__]; [image_api] is the
    [annotate] method of [service.images()]. *)
Record t : Type := { image_api : list annotate_request -> HttpRequest }.

Definition init (W : World) : Py.result t :=
  do _ <- get_application_default W;
  do _ <- discovery_build W;
  Ok {| image_api := annotate W |}.

(** Looking up a method of an [HttpRequest] by name and calling it
    without arguments.  The class has a method [execute]; it has no
    attribute spelled [exexute]. *)
Definition call_method (request : HttpRequest) (name : string)
  : Py.result vision_data :=
  if String.eqb name "execute" then execute request
  else Raise (AttributeError
                ("'HttpRequest' object has no attribute '" +:+ name +:+ "'")).

Definition request (self : t) (payload : list annotate_request)
  : Py.result vision_data :=
  let request := image_api self payload in
  call_method request "exexute".

Definition build_payload_for_localfile (W : World) (path : string)
  : Py.result (list annotate_request) :=
  do encoded <- get_encoded_image W path;
  Ok [ {| image := Content encoded;
          feature_type := "FACE_DETECTION"; maxResults := 4 |} ].

(** Returns the lines handed to [logger.error] next to the payload. *)
Definition build_payload_for_url (url : string)
  : Py.result (list string * list annotate_request) :=
  do gcs <- is_gcs_image_uri url;
  let log := if negb gcs then ["Must be a GCS URI: " +:+ url] else [] in
  Ok (log, [ {| image := GcsImageUri url;
                feature_type := "FACE_DETECTION"; maxResults := 4 |} ]).

Definition build_payload (W : World) (url_or_path : string) (is_localfile : bool)
  : Py.result (list string * list annotate_request) :=
  if is_localfile
  then do payload <- build_payload_for_localfile W url_or_path; Ok ([], payload)
  else build_payload_for_url url_or_path.

(** [__call__]: the logged lines and the outcome. *)
Definition call (W : World) (self : t) (url_or_path : string)
  : list string * Py.result DetectionResult :=
  match is_localfile url_or_path with
  | Raise e => ([], Raise e)
  | Ok is_local =>
      match build_payload W url_or_path is_local with
      | Raise e => ([], Raise e)
      | Ok (log, payload) =>
          (log,
           do data <- request self payload;
           GoogleVisionAPIFaceDetectionResultFactory.call url_or_path data)
      end
  end.

End GoogleVisionAPIFaceDetection.

(** ** Project Oxford provider (lines 269-363) *)

Module MSProjectoxfordDetectionResultFactory.

Definition get_coords (data : ms_data) : Py.result (list Coord) :=
  Py.yield_from_each (fun response : gmap string face_rectangle =>
    do rect <- Py.getitem response "faceRectangle";
    do left1 <- Py.getitem rect "left";
    do top1 <- Py.getitem rect "top";
    do left2 <- Py.getitem rect "left";
    do top2 <- Py.getitem rect "top";
    do height2 <- Py.getitem rect "height";
    do left3 <- Py.getitem rect "left";
    do width3 <- Py.getitem rect "width";
    do top3 <- Py.getitem rect "top";
    do height3 <- Py.getitem rect "height";
    do left4 <- Py.getitem rect "left";
    do width4 <- Py.getitem rect "width";
    do top4 <- Py.getitem rect "top";
    Ok [ {| x := left1; y := top1 |};
         {| x := left2; y := top2 + height2 |};
         {| x := left3 + width3; y := top3 + height3 |};
         {| x := left4 + width4; y := top4 |} ])
    data.

Definition call (uri : string) (data : ms_data) : Py.result DetectionResult :=
  do coords <- get_coords data;
  Ok {| uri := uri; coords := coords; data := MSData data |}.

End MSProjectoxfordDetectionResultFactory.

Module MSProjectoxfordDetection.

Record t : Type := { api_token : string }.

Definition endpoint : string :=
  "https://api.projectoxford.ai/face/v1.0/detect?returnFaceId=true&returnFaceLandmarks=true".

(** The text of the exception raised on a status other than 200. *)
Definition failure_message (res : Response) : string :=
  "detection failed: status=" +:+ Py.str (status_code res)
    +:+ ", reason=" +:+ reason res
    +:+ ", content=" +:+ Py.repr_bytes (content res).

Definition request (W : World) (headers : gmap string string) (payload : post_body)
  : Py.result ms_data :=
  do res <- requests_post W endpoint headers payload;
  if negb (status_code res =? 200)
  then Raise (MSProjectoxfordDetectionError (failure_message res))
  else match json res with
       | Some decoded => Ok decoded
       | None => Raise (ValueError "Expecting value")
       end.

Definition build_headers (self : t) (is_localfile : bool) : gmap string string :=
  <[ "Content-Type" :=
       if is_localfile then "application/octet-stream" else "application/json" ]>
    (<[ "Ocp-Apim-Subscription-Key" := api_token self ]> ∅).

Definition build_payload_for_localfile (W : World) (path : string)
  : Py.result post_body :=
  do b <- read_file W path;
  Ok (Bytes b).

Definition build_payload_for_url (W : World) (url : string) : Py.result post_body :=
  Ok (Text (json_dumps W (<[ "url" := url ]> ∅))).

Definition build_payload (W : World) (url_or_path : string) (is_localfile : bool)
  : Py.result post_body :=
  if is_localfile then build_payload_for_localfile W url_or_path
  else build_payload_for_url W url_or_path.

Definition call (W : World) (self : t) (url_or_path : string)
  : Py.result DetectionResult :=
  do is_local <- is_localfile url_or_path;
  let headers := build_headers self is_local in
  do payload <- build_payload W url_or_path is_local;
  do data <- request W headers payload;
  MSProjectoxfordDetectionResultFactory.call url_or_path data.

End MSProjectoxfordDetection.

(** ** Whole-image provider (lines 376-423) *)

Module AllDetectionResultFactory.

Definition call (uri : string) (image_size : Z * Z) : DetectionResult :=
  {| uri := uri;
     coords := [ {| x := 0; y := 0 |};
                 {| x := 0; y := snd image_size |};
                 {| x := fst image_size; y := 0 |};
                 {| x := fst image_size; y := snd image_size |} ];
     data := ImageSize image_size |}.

End AllDetectionResultFactory.

Module AllDetection.

Definition get_image_size_for_local (W : World) (path : string) : Py.result (Z * Z) :=
  do fp <- read_file W path;
  image_size W fp.

Definition get_image_size_for_remote (W : World) (url : string) : Py.result (Z * Z) :=
  do res <- requests_get W url;
  image_size W (content res).

Definition call (W : World) (url_or_path : string) : Py.result DetectionResult :=
  do is_local <- is_localfile url_or_path;
  do image_size <-
    (if is_local then get_image_size_for_local W url_or_path
     else get_image_size_for_remote W url_or_path);
  Ok (AllDetectionResultFactory.call url_or_path image_size).

End AllDetection.

(** ** Entry point (lines 436-464) *)

Definition get_ms_param (W : World) : Py.result (gmap string string) :=
  pit_get W.

(** The utilities [main] registers: two under the interface [IDetection],
    one under [ICrop]. *)
Inductive IDetection : Type :=
| gcp_utility (self : GoogleVisionAPIFaceDetection.t)
| ms_utility (self : MSProjectoxfordDetection.t).

Inductive ICrop : Type :=
| akamai_utility.

(** [zope.interface.registry.Components]: utilities by interface and name. *)
Record Components : Type :=
  { detection_utilities : gmap string IDetection;
    crop_utilities : gmap string ICrop }.

Definition empty_components : Components :=
  {| detection_utilities := ∅; crop_utilities := ∅ |}.

Definition register_detection (reg : Components) (u : IDetection) (name : string)
  : Components :=
  {| detection_utilities := <[ name := u ]> (detection_utilities reg);
     crop_utilities := crop_utilities reg |}.

Definition register_crop (reg : Components) (u : ICrop) (name : string) : Components :=
  {| detection_utilities := detection_utilities reg;
     crop_utilities := <[ name := u ]> (crop_utilities reg) |}.

(** [reg.queryUtility(IDetection, name)]: [None] when nothing is
    registered under the name. *)
Definition query_detection (reg : Components) (name : string) : option IDetection :=
  detection_utilities reg !! name.

(** [detect(target)] for a registered utility. *)
Definition call_detection (W : World) (detect : IDetection) (target : string)
  : list string * Py.result DetectionResult :=
  match detect with
  | gcp_utility self => GoogleVisionAPIFaceDetection.call W self target
  | ms_utility self => ([], MSProjectoxfordDetection.call W self target)
  end.

(** The parsed command line. *)
Record Namespace : Type := { mode : string; target : string; crop : string }.

(** [main]: the lines logged and, when no exception escapes, the lines
    printed on standard output. *)
Definition main (W : World) (args : Namespace) : list string * Py.result (list string) :=
  match GoogleVisionAPIFaceDetection.init W with
  | Raise e => ([], Raise e)
  | Ok gcp =>
      let reg := register_detection empty_components (gcp_utility gcp) "gcp" in
      match (do param <- get_ms_param W; Py.getitem param "API_TOKEN") with
      | Raise e => ([], Raise e)
      | Ok token =>
          let reg := register_detection reg
                       (ms_utility {| MSProjectoxfordDetection.api_token := token |}) "ms" in
          let reg := register_crop reg akamai_utility "akamai" in
          match query_detection reg (mode args) with
          | None => ([], Raise (TypeError "'NoneType' object is not callable"))
          | Some detect =>
              let '(log, outcome) := call_detection W detect (target args) in
              (log,
               do result <- outcome;
               do url <- AkamaiCrop.call W result AkamaiCrop.defaults;
               Ok [url])
          end
      end
  end.

(** ** A sample world

    One instance of the collaborators, for running the definitions on
    concrete inputs.  Its URL object keeps the text before the first [?]
    as [base] and splits the query at [&] and [=]; serialising escapes,
    in a value, every byte outside letters, digits and the characters
    furl leaves bare. *)

Module Sample.

Fixpoint split_at (sep : ascii) (s : string) : string * option string :=
  match s with
  | EmptyString => (EmptyString, None)
  | String c s' =>
      if Ascii.eqb c sep then (EmptyString, Some s')
      else let '(a, b) := split_at sep s' in (String c a, b)
  end.

Fixpoint split_all (fuel : nat) (sep : ascii) (s : string) : list string :=
  match fuel with
  | O => [s]
  | S fuel' =>
      match split_at sep s with
      | (a, None) => [a]
      | (a, Some b) => a :: split_all fuel' sep b
      end
  end.

Definition parse_pair (kv : string) : string * string :=
  let '(k, v) := split_at "="%char kv in (k, default EmptyString v).

Definition parse (uri : string) : Py.result furl.t :=
  match split_at "?"%char uri with
  | (o, None) => Ok {| furl.base := o; furl.args := [] |}
  | (o, Some q) =>
      Ok {| furl.base := o;
            furl.args := map parse_pair (split_all (String.length q) "&"%char q) |}
  end.

Definition hex_upper (n : N) : ascii :=
  match n with
  | 10 => "A" | 11 => "B" | 12 => "C" | 13 => "D" | 14 => "E" | 15 => "F"
  | _ => Py.hex_digit n
  end%N%char.

Definition safe_chars : string :=
  "abcdefghijklmnopqrstuvwxyzABCDEFGHIJKLMNOPQRSTUVWXYZ0123456789_.-/?:@~!$'()*,=".

Fixpoint quote (s : string) : string :=
  match s with
  | EmptyString => EmptyString
  | String c s' =>
      let n := N_of_ascii c in
      (if Py.contains c safe_chars then String c EmptyString
       else if (n =? 32)%N then "+"
       else String "%"%char
              (String (hex_upper (n / 16)) (String (hex_upper (n mod 16)) EmptyString)))
      +:+ quote s'
  end.

Fixpoint join (sep : string) (l : list string) : string :=
  match l with
  | [] => EmptyString
  | [a] => a
  | a :: l' => a +:+ sep +:+ join sep l'
  end.

Definition url (obj : furl.t) : string :=
  match furl.args obj with
  | [] => furl.base obj
  | l => furl.base obj +:+ "?"
           +:+ join "&" (map (fun kv => quote (fst kv) +:+ "=" +:+ quote (snd kv)) l)
  end.

Definition one_face : gmap string face_rectangle :=
  <[ "faceRectangle" :=
       <[ "left" := 5 ]> (<[ "top" := 6 ]> (<[ "width" := 10 ]> (<[ "height" := 20 ]> ∅))) ]> ∅.

Definition one_annotation : face_annotation :=
  <[ "fdBoundingPoly" := <[ "vertices" := [ <[ "x" := 1 ]> (<[ "y" := 2 ]> ∅) ] ]> ∅ ]>
    (<[ "boundingPoly" := <[ "vertices" := [ <[ "x" := 3 ]> (<[ "y" := 4 ]> ∅) ] ]> ∅ ]> ∅).

Definition vision_answer : vision_data :=
  <[ "responses" := [ <[ "faceAnnotations" := [ one_annotation ] ]> ∅ ] ]> ∅.

Definition post (endpoint : string) (headers : gmap string string) (body : post_body)
  : Py.result Response :=
  match headers !! "Ocp-Apim-Subscription-Key" with
  | Some "dummy token" =>
      Ok {| status_code := 200; reason := "OK"; content := "[...]";
            json := Some [ one_face ] |}
  | _ =>
      Ok {| status_code := 401; reason := "Access Denied";
            content := "invalid key"; json := None |}
  end.

Definition json_string (s : string) : string :=
String Py.dquote (s +:+ String Py.dquote EmptyString).

Definition world : World :=
  {| furl_parse := parse;
     furl_url := url;
     read_file := fun path =>
       if String.eqb path "face.jpg" then Ok "JFIF"
       else Raise (OSError ("No such file or directory: " +:+ path));
     b64encode := fun b => "base64," +:+ b;
     json_dumps := fun d =>
     "{" +:+ json_string "url" +:+ ": "
       +:+ json_string (default EmptyString (d !! "url")) +:+ "}";
     get_application_default := Ok tt;
     discovery_build := Ok tt;
     annotate := fun _ => {| execute := Ok vision_answer |};
     requests_post := post;
     requests_get := fun url =>
       Ok {| status_code := 200; reason := "OK"; content := "JFIF"; json := None |};
     image_size := fun _ => Ok (40, 50);
     pit_get := Ok (<[ "API_TOKEN" := "dummy token" ]> ∅) |}.

Definition doctest_coords : list Coord :=
  [ {| x := 20; y := 30 |}; {| x := 25; y := 24 |}; {| x := 29; y := 21 |} ].

Definition doctest_result : DetectionResult :=
  {| uri := "https://example.com/example.jpg"; coords := doctest_coords;
     data := ImageSize (0, 0) |}.

Definition background_kwds : AkamaiCrop.kwds :=
  {| AkamaiCrop.width := "*"; AkamaiCrop.height := "*";
     AkamaiCrop.composite_to := "*.*";
     AkamaiCrop.bg_url := Some "https://example.com/bg.jpg";
     AkamaiCrop.bg_width := "*"; AkamaiCrop.bg_height := "*" |}.

End Sample.

(** * Properties *)

(** ** Definitions that follow the specification's words *)

Definition is_minimum (m : Z) (l : list Z) : Prop :=
  In m l /\ Forall (fun z => m <= z) l.

Definition is_maximum (m : Z) (l : list Z) : Prop :=
  In m l /\ Forall (fun z => z <= m) l.

(** The crop parameter as section 4.5 of the specification words it:
    [W = maxX - minX] and [H = maxY - minX]. *)
Definition spec_crop_value (minX minY maxX maxY : Z) : string :=
  Py.str (maxX - minX) +:+ ":" +:+ Py.str (maxY - minX) +:+ ";"
    +:+ Py.str minX +:+ "," +:+ Py.str minY.

(** A face rectangle of the Project Oxford answer, read off a response
    entry that has all four fields. *)
Record Rectangle : Type := { left : Z; top : Z; width : Z; height : Z }.

Definition rectangle_of (response : gmap string face_rectangle) : option Rectangle :=
  match response !! "faceRectangle" with
  | Some rect =>
      match rect !! "left", rect !! "top", rect !! "width", rect !! "height" with
      | Some l, Some t, Some w, Some h =>
          Some {| left := l; top := t; width := w; height := h |}
      | _, _, _, _ => None
      end
  | None => None
  end.

Fixpoint rectangles_of (data : ms_data) : option (list Rectangle) :=
  match data with
  | [] => Some []
  | response :: data' =>
      match rectangle_of response, rectangles_of data' with
      | Some r, Some rs => Some (r :: rs)
      | _, _ => None
      end
  end.

(** Top-left, bottom-left, bottom-right, top-right. *)
Definition spec_rectangle_points (r : Rectangle) : list Coord :=
  [ {| x := left r; y := top r |};
    {| x := left r; y := top r + height r |};
    {| x := left r + width r; y := top r + height r |};
    {| x := left r + width r; y := top r |} ].

(** A vertex as a point, a missing field counting as 0. *)
Definition vertex_point (v : vertex) : Coord :=
  {| x := default 0 (v !! "x"); y := default 0 (v !! "y") |}.

(** The vertices of one of the two polygons of a face annotation. *)
Definition vertices_of (a : face_annotation) (name : string) : option (list vertex) :=
  match a !! name with
  | Some poly => poly !! "vertices"
  | None => None
  end.

Definition spec_annotation_points (a : face_annotation) : list Coord :=
  map vertex_point (default [] (vertices_of a "fdBoundingPoly"))
    ++ map vertex_point (default [] (vertices_of a "boundingPoly")).

Definition spec_vision_points (data : vision_data) : list Coord :=
  flat_map (fun response : annotate_response =>
              flat_map spec_annotation_points
                       (default [] (response !! "faceAnnotations")))
           (default [] (data !! "responses")).

(** Every face annotation of the answer has both polygons, each with its
    list of vertices. *)
Definition both_polygons (a : face_annotation) : bool :=
  match vertices_of a "fdBoundingPoly", vertices_of a "boundingPoly" with
  | Some _, Some _ => true
  | _, _ => false
  end.

Definition well_formed_vision (data : vision_data) : bool :=
  forallb (fun response : annotate_response =>
             forallb both_polygons (default [] (response !! "faceAnnotations")))
          (default [] (data !! "responses")).

(** A body of printable ASCII bytes without quotes and backslashes. *)
Definition plain_byte (c : ascii) : bool :=
  negb (Ascii.eqb c Py.squote) && negb (Ascii.eqb c Py.dquote)
  && negb (Ascii.eqb c Py.backslash)
  && (32 <=? N_of_ascii c)%N && (N_of_ascii c <? 127)%N.

Fixpoint plain (b : string) : bool :=
  match b with
  | EmptyString => true
  | String c b' => plain_byte c && plain b'
  end.

(** ** Further definitions from the source *)

(** [Coord.__repr__] and [Coord.__eq__] (lines 56-60), on two points. *)
Definition Coord_repr (self : Coord) : string :=
  "Coord(" +:+ Py.str (x self) +:+ ", " +:+ Py.str (y self) +:+ ")".

Definition Coord_eq (self other : Coord) : bool :=
  (x self =? x other) && (y self =? y other).

(** The characters of a formatted integer. *)
Definition int_chars : string := "-0123456789".

(** A world like [Sample.world] whose URL library rejects one locator,
    and a detection result without points. *)
Module Scenario.

Definition rejected : string := "http://example.com:port/a.jpg".

Definition strict_parse (u : string) : Py.result furl.t :=
  if String.eqb u rejected then Raise (ValueError "Invalid port")
  else Sample.parse u.

Definition strict_world : World :=
  {| furl_parse := strict_parse;
     furl_url := Sample.url;
     read_file := read_file Sample.world;
     b64encode := b64encode Sample.world;
     json_dumps := json_dumps Sample.world;
     get_application_default := Ok tt;
     discovery_build := Ok tt;
     annotate := annotate Sample.world;
     requests_post := requests_post Sample.world;
     requests_get := requests_get Sample.world;
     image_size := image_size Sample.world;
     pit_get := pit_get Sample.world |}.

Definition no_points : DetectionResult :=
  {| uri := "https://example.com/example.jpg"; coords := [];
     data := MSData [] |}.

End Scenario.

(** An outcome that is not an exception of the script's own classes. *)
Definition foreign_errors_only {A : Type} (m : Py.result A) : Prop :=
  forall e, m = Raise e -> Py.declared_by_script e = false.

(** Further worlds: one whose HTTP server answers 404 with the same
    body, one whose backend finds no face, one whose configuration has
    no API token. *)
Module Worlds.

Definition with_get (get : string -> Py.result Response) : World :=
  {| furl_parse := furl_parse Sample.world;
     furl_url := furl_url Sample.world;
     read_file := read_file Sample.world;
     b64encode := b64encode Sample.world;
     json_dumps := json_dumps Sample.world;
     get_application_default := get_application_default Sample.world;
     discovery_build := discovery_build Sample.world;
     annotate := annotate Sample.world;
     requests_post := requests_post Sample.world;
     requests_get := get;
     image_size := image_size Sample.world;
     pit_get := pit_get Sample.world |}.

Definition not_found : World :=
  with_get (fun url =>
    Ok {| status_code := 404; reason := "Not Found"; content := "JFIF";
          json := None |}).

Definition no_face : World :=
  {| furl_parse := furl_parse Sample.world;
     furl_url := furl_url Sample.world;
     read_file := read_file Sample.world;
     b64encode := b64encode Sample.world;
     json_dumps := json_dumps Sample.world;
     get_application_default := get_application_default Sample.world;
     discovery_build := discovery_build Sample.world;
     annotate := annotate Sample.world;
     requests_post := fun _ _ _ =>
       Ok {| status_code := 200; reason := "OK"; content := "[]"; json := Some [] |};
     requests_get := requests_get Sample.world;
     image_size := image_size Sample.world;
     pit_get := pit_get Sample.world |}.

Definition no_token : World :=
  {| furl_parse := furl_parse Sample.world;
     furl_url := furl_url Sample.world;
     read_file := read_file Sample.world;
     b64encode := b64encode Sample.world;
     json_dumps := json_dumps Sample.world;
     get_application_default := get_application_default Sample.world;
     discovery_build := discovery_build Sample.world;
     annotate := annotate Sample.world;
     requests_post := requests_post Sample.world;
     requests_get := requests_get Sample.world;
     image_size := image_size Sample.world;
     pit_get := Ok ∅ |}.

End Worlds.

(** ** Python's [min] and [max] *)

Lemma foldl_min_spec (xs : list Z) (best : Z) :
  let m := foldl (fun best item => if item <? best then item else best) best xs in
  In m (best :: xs) /\ m <= best /\ Forall (fun z => m <= z) xs.
Proof.
  revert best.
  induction xs as [|item xs IH]; intros best; simpl.
  - split; [now left|]. split; [lia|constructor].
  - destruct (IH (if item <? best then item else best)) as (Hin & Hle & Hall).
    destruct (Z.ltb_spec item best) as [Hlt|Hge].
    + split; [destruct Hin as [<-|Hin]; [right; now left|right; now right]|].
      split; [lia|]. constructor; [lia|exact Hall].
    + split; [destruct Hin as [<-|Hin]; [now left|right; now right]|].
      split; [lia|]. constructor; [lia|exact Hall].
Qed.

Lemma min_spec (l : list Z) (m : Z) : Py.min l = Ok m -> is_minimum m l.
Proof.
  destruct l as [|a l]; simpl; [discriminate|].
  intros [= <-].
  destruct (foldl_min_spec l a) as (Hin & Hle & Hall).
  split; [exact Hin|]. constructor; assumption.
Qed.

Lemma foldl_max_spec (xs : list Z) (best : Z) :
  let m := foldl (fun best item => if best <? item then item else best) best xs in
  In m (best :: xs) /\ best <= m /\ Forall (fun z => z <= m) xs.
Proof.
  revert best.
  induction xs as [|item xs IH]; intros best; simpl.
  - split; [now left|]. split; [lia|constructor].
  - destruct (IH (if best <? item then item else best)) as (Hin & Hle & Hall).
    destruct (Z.ltb_spec best item) as [Hlt|Hge].
    + split; [destruct Hin as [<-|Hin]; [right; now left|right; now right]|].
      split; [lia|]. constructor; [lia|exact Hall].
    + split; [destruct Hin as [<-|Hin]; [now left|right; now right]|].
      split; [lia|]. constructor; [lia|exact Hall].
Qed.

Lemma max_spec (l : list Z) (m : Z) : Py.max l = Ok m -> is_maximum m l.
Proof.
  destruct l as [|a l]; simpl; [discriminate|].
  intros [= <-].
  destruct (foldl_max_spec l a) as (Hin & Hle & Hall).
  split; [exact Hin|]. constructor; assumption.
Qed.

Lemma minimum_unique (l : list Z) (m m' : Z) :
  is_minimum m l -> is_minimum m' l -> m = m'.
Proof.
  intros [Hin Hle] [Hin' Hle'].
  rewrite List.Forall_forall in Hle, Hle'.
  apply Hle in Hin'. apply Hle' in Hin. lia.
Qed.

Lemma maximum_unique (l : list Z) (m m' : Z) :
  is_maximum m l -> is_maximum m' l -> m = m'.
Proof.
  intros [Hin Hle] [Hin' Hle'].
  rewrite List.Forall_forall in Hle, Hle'.
  apply Hle in Hin'. apply Hle' in Hin. lia.
Qed.

(** ** AkamaiCrop *)


Lemma getitem_remove_key_other (l : list (string * string)) (k k' : string) :
  String.eqb k k' = false ->
  furl.getitem (furl.remove_key k l) k' = furl.getitem l k'.
Proof.
  intros Hne.
  induction l as [|[k0 v0] l IH]; simpl; [reflexivity|].
  destruct (String.eqb k k0) eqn:E; simpl.
  - apply String.eqb_eq in E as <-.
    rewrite String.eqb_sym, Hne. exact IH.
  - now rewrite IH.
Qed.

Lemma getitem_setitem_other (l : list (string * string)) (k k' v : string) :
  String.eqb k k' = false ->
  furl.getitem (furl.setitem l k v) k' = furl.getitem l k'.
Proof.
  intros Hne.
  induction l as [|[k0 v0] l IH]; simpl.
  - rewrite String.eqb_sym, Hne. reflexivity.
  - destruct (String.eqb k k0) eqn:E; simpl.
    + apply String.eqb_eq in E as <-.
      rewrite String.eqb_sym, Hne.
      now apply getitem_remove_key_other.
    + now rewrite IH.
Qed.

Lemma create_rect_nonempty (coords : list Coord) :
  coords <> [] ->
  exists start end_,
    AkamaiCrop.create_rect coords = Ok (start, end_)
    /\ is_minimum (x start) (map x coords) /\ is_minimum (y start) (map y coords)
    /\ is_maximum (x end_) (map x coords) /\ is_maximum (y end_) (map y coords).
Proof.
  destruct coords as [|c cs]; [congruence|]. intros _.
  unfold AkamaiCrop.create_rect.
  destruct (Py.min (map x (c :: cs))) as [min_x|] eqn:Hminx; [|discriminate].
  destruct (Py.min (map y (c :: cs))) as [min_y|] eqn:Hminy; [|discriminate].
  destruct (Py.max (map x (c :: cs))) as [max_x|] eqn:Hmaxx; [|discriminate].
  destruct (Py.max (map y (c :: cs))) as [max_y|] eqn:Hmaxy; [|discriminate].
  exists {| x := min_x; y := min_y |}, {| x := max_x; y := max_y |}.
  cbn [Py.bind x y].
  split; [reflexivity|].
  split; [now apply min_spec|].
  split; [now apply min_spec|].
  split; now apply max_spec.
Qed.

Lemma create_rect_empty :
  AkamaiCrop.create_rect [] = Raise (ValueError "min() arg is an empty sequence").
Proof. reflexivity. Qed.

(** C3, amended.  The bounding-rectangle computation raises exactly when
    the sequence of points is empty, and then no rectangle is returned;
    the exception is the built-in [ValueError] that [min] raises on an
    empty sequence, since the script declares no error class for this
    case. *)
Theorem create_rect_raises_iff_empty (coords : list Coord) :
  (AkamaiCrop.create_rect coords = Raise (ValueError "min() arg is an empty sequence")
   <-> coords = [])
  /\ ((exists rect, AkamaiCrop.create_rect coords = Ok rect) <-> coords <> []).
Proof.
  split; split.
  - intros Hraise. destruct coords as [|c cs]; [reflexivity|].
    destruct (create_rect_nonempty (c :: cs)) as (s & e & Hok & _); [discriminate|].
    rewrite Hok in Hraise. discriminate.
  - intros ->. apply create_rect_empty.
  - intros [rect Hok] ->. rewrite create_rect_empty in Hok. discriminate.
  - intros Hne. destruct (create_rect_nonempty coords Hne) as (s & e & Hok & _).
    now exists (s, e).
Qed.

(** C3 as stated fails: on the empty sequence the exception raised is
    not of a class the script declares, so the statement that an error of
    the script's own is raised exactly on the empty sequence is false. *)
Lemma create_rect_empty_error_is_builtin :
  ~ (forall coords : list Coord,
       (exists e, AkamaiCrop.create_rect coords = Raise e
                  /\ Py.declared_by_script e = true)
       <-> coords = []).
Proof.
  intros Hclaim.
  destruct (proj2 (Hclaim []) eq_refl) as (e & Hraise & Hdecl).
  rewrite create_rect_empty in Hraise.
  injection Hraise as <-. discriminate Hdecl.
Qed.

(** What [build_uri] returns once the source URL has been parsed: the
    serialisation of the object that carries [crop] and [resize], and,
    when a background is given, a bar and the background. *)
Lemma build_uri_parsed (W : World) (uri : string) (start end_ : Coord)
      (k : AkamaiCrop.kwds) (f : furl.t) :
  furl_parse W uri = Ok f ->
  let obj := furl.set_arg (furl.set_arg f "crop" (AkamaiCrop.crop_value start end_))
                          "resize" (AkamaiCrop.width k +:+ ":" +:+ AkamaiCrop.height k) in
  AkamaiCrop.build_uri W uri start end_ k =
    match AkamaiCrop.bg_url k with
    | Some (String _ _ as bg) =>
        do g <- furl_parse W bg;
        Ok (furl_url W obj +:+ ("|" +:+
              furl_url W (furl.set_arg g "resize"
                            (AkamaiCrop.bg_width k +:+ ":" +:+ AkamaiCrop.bg_height k))))
    | _ => Ok (furl_url W obj)
    end.
Proof.
  intros Hparse. unfold AkamaiCrop.build_uri. rewrite Hparse. reflexivity.
Qed.

(** With a background URL the foreground part of the result is the
    serialisation taken before [composite-to] is assigned: its
    [composite-to] parameter is whatever the source URL had. *)
Lemma build_uri_background (W : World) (uri bg : string) (start end_ : Coord)
      (k : AkamaiCrop.kwds) (f g : furl.t) :
  AkamaiCrop.bg_url k = Some bg -> bg <> EmptyString ->
  furl_parse W uri = Ok f -> furl_parse W bg = Ok g ->
  let obj := furl.set_arg (furl.set_arg f "crop" (AkamaiCrop.crop_value start end_))
                          "resize" (AkamaiCrop.width k +:+ ":" +:+ AkamaiCrop.height k) in
  AkamaiCrop.build_uri W uri start end_ k
  = Ok (furl_url W obj +:+ ("|" +:+
          furl_url W (furl.set_arg g "resize"
                        (AkamaiCrop.bg_width k +:+ ":" +:+ AkamaiCrop.bg_height k))))
  /\ furl.getitem (furl.args obj) "composite-to" = furl.getitem (furl.args f) "composite-to".
Proof.
  intros Hbg Hne Hf Hg. cbv zeta. split.
  - rewrite (build_uri_parsed W uri start end_ k f Hf). rewrite Hbg.
    destruct bg as [|c bg]; [congruence|].
    rewrite Hg. reflexivity.
  - cbn [furl.set_arg furl.args].
    rewrite !getitem_setitem_other by reflexivity. reflexivity.
Qed.

(** C2 on a concrete input.  With the background
    [https://example.com/bg.jpg] the encoder returns the foreground URL
    without a [composite-to] parameter, and the value passed for
    [composite_to] does not change the result; the string that the claim
    describes carries [composite-to=*.*] before the bar. *)
Theorem composite_to_missing_from_result :
  AkamaiCrop.call Sample.world Sample.doctest_result Sample.background_kwds
  = Ok "https://example.com/example.jpg?crop=9:1%3B20,21&resize=*:*|https://example.com/bg.jpg?resize=*:*"
  /\ Sample.url
       (furl.set_arg
          {| furl.base := "https://example.com/example.jpg";
             furl.args := [("crop", "9:1;20,21"); ("resize", "*:*")] |}
          "composite-to" "*.*")
     = "https://example.com/example.jpg?crop=9:1%3B20,21&resize=*:*&composite-to=*.*"
  /\ forall composite_to : string,
       AkamaiCrop.call Sample.world Sample.doctest_result
         {| AkamaiCrop.width := "*"; AkamaiCrop.height := "*";
            AkamaiCrop.composite_to := composite_to;
            AkamaiCrop.bg_url := Some "https://example.com/bg.jpg";
            AkamaiCrop.bg_width := "*"; AkamaiCrop.bg_height := "*" |}
       = AkamaiCrop.call Sample.world Sample.doctest_result Sample.background_kwds.
Proof.
  split; [reflexivity|]. split; [reflexivity|].
  intros composite_to. reflexivity.
Qed.

(** ** Draining a generator *)

Lemma yield_from_each_cons {A B} (f : A -> Py.result (list B)) (a : A) (l : list A) :
  Py.yield_from_each f (a :: l)
  = do bs <- f a; do rest <- Py.yield_from_each f l; Ok (bs ++ rest).
Proof.
  unfold Py.yield_from_each. simpl.
  destruct (f a) as [bs|e]; simpl; [|reflexivity].
  destruct (Py.for_each f l) as [bss|e]; reflexivity.
Qed.

Lemma yield_from_each_ok {A B} (f : A -> Py.result (list B)) (g : A -> list B)
      (l : list A) :
  (forall a, In a l -> f a = Ok (g a)) ->
  Py.yield_from_each f l = Ok (flat_map g l).
Proof.
  induction l as [|a l IH]; intros Hall; [reflexivity|].
  rewrite yield_from_each_cons, (Hall a) by now left.
  rewrite IH by (intros b Hb; apply Hall; now right).
  reflexivity.
Qed.

(** ** Project Oxford normalisation *)

Lemma ms_get_coords_cons (response : gmap string face_rectangle) (data : ms_data) :
  MSProjectoxfordDetectionResultFactory.get_coords (response :: data)
  = do points <- MSProjectoxfordDetectionResultFactory.get_coords [response];
    do rest <- MSProjectoxfordDetectionResultFactory.get_coords data;
    Ok (points ++ rest).
Proof.
  unfold MSProjectoxfordDetectionResultFactory.get_coords.
  rewrite !yield_from_each_cons.
  match goal with
  | |- (do bs <- ?m; _) = _ => destruct m as [bs|e]; [|reflexivity]
  end.
  cbn. rewrite app_nil_r. reflexivity.
Qed.

Lemma rectangle_points (response : gmap string face_rectangle) (r : Rectangle) :
  rectangle_of response = Some r ->
  MSProjectoxfordDetectionResultFactory.get_coords [response]
  = Ok (spec_rectangle_points r).
Proof.
  unfold rectangle_of, MSProjectoxfordDetectionResultFactory.get_coords.
  rewrite yield_from_each_cons. unfold Py.getitem.
  destruct (response !! "faceRectangle") as [rect|]; [|discriminate].
  destruct (rect !! "left") as [l|] eqn:El; [|discriminate].
  destruct (rect !! "top") as [t|] eqn:Et; [|discriminate].
  destruct (rect !! "width") as [w|] eqn:Ew; [|discriminate].
  destruct (rect !! "height") as [h|] eqn:Eh; [|discriminate].
  intros [= <-]. cbn [Py.bind]. rewrite El, Et, Ew, Eh.
  cbn. reflexivity.
Qed.

(** An entry without a face rectangle, or a rectangle without one of its
    fields, makes the subscript raise [KeyError]. *)
Lemma rectangle_missing (response : gmap string face_rectangle) :
  rectangle_of response = None ->
  exists key, MSProjectoxfordDetectionResultFactory.get_coords [response]
              = Raise (KeyError key).
Proof.
  unfold rectangle_of, MSProjectoxfordDetectionResultFactory.get_coords.
  rewrite yield_from_each_cons. unfold Py.getitem.
  destruct (response !! "faceRectangle") as [rect|]; [|eexists; reflexivity].
  cbn [Py.bind].
  destruct (rect !! "left") as [l|] eqn:El; [|eexists; reflexivity].
  destruct (rect !! "top") as [t|] eqn:Et; [|eexists; reflexivity].
  cbn [Py.bind].
  destruct (rect !! "height") as [h|] eqn:Eh; [|eexists; reflexivity].
  cbn [Py.bind].
  destruct (rect !! "width") as [w|] eqn:Ew; [discriminate|eexists; reflexivity].
Qed.

Lemma ms_get_coords_missing_field (data : ms_data) :
  rectangles_of data = None ->
  exists key, MSProjectoxfordDetectionResultFactory.get_coords data
              = Raise (KeyError key).
Proof.
  induction data as [|response data IH]; simpl; [discriminate|].
  rewrite ms_get_coords_cons.
  destruct (rectangle_of response) as [r|] eqn:Hr.
  - rewrite (rectangle_points response r Hr). cbn [Py.bind].
    destruct (rectangles_of data) as [rs|]; [discriminate|].
    intros _. destruct (IH eq_refl) as [key ->]. now exists key.
  - intros _. destruct (rectangle_missing response Hr) as [key ->]. now exists key.
Qed.

(** C5.  When every entry of the answer holds a face rectangle with its
    four fields, the normalisation yields, rectangle after rectangle, the
    four points top-left, bottom-left, bottom-right, top-right. *)
Theorem ms_get_coords_rectangles (data : ms_data) (rects : list Rectangle) :
  rectangles_of data = Some rects ->
  MSProjectoxfordDetectionResultFactory.get_coords data
  = Ok (flat_map spec_rectangle_points rects).
Proof.
  revert rects.
  induction data as [|response data IH]; intros rects; simpl.
  - intros [= <-]. reflexivity.
  - destruct (rectangle_of response) as [r|] eqn:Hr; [|discriminate].
    destruct (rectangles_of data) as [rs|]; [|discriminate].
    intros [= <-].
    rewrite ms_get_coords_cons, (rectangle_points response r Hr), (IH rs eq_refl).
    reflexivity.
Qed.

Lemma ms_get_coords_rectangles_witness :
  MSProjectoxfordDetectionResultFactory.get_coords [Sample.one_face]
  = Ok [ {| x := 5; y := 6 |}; {| x := 5; y := 26 |};
         {| x := 15; y := 26 |}; {| x := 15; y := 6 |} ].
Proof.
  apply (ms_get_coords_rectangles [Sample.one_face]
           [ {| left := 5; top := 6; width := 10; height := 20 |} ]).
  reflexivity.
Defined.

(** ** Vision API normalisation *)

Lemma annotation_points (a : face_annotation) :
  both_polygons a = true ->
  Py.yield_from_each (fun name : string =>
      do poly <- Py.getitem a name;
      do vertices <- Py.getitem poly "vertices";
      Ok (map (fun vertice : vertex =>
                 {| x := Py.get vertice "x" 0; y := Py.get vertice "y" 0 |})
              vertices))
    ["fdBoundingPoly"; "boundingPoly"]
  = Ok (spec_annotation_points a).
Proof.
  unfold both_polygons, spec_annotation_points, vertices_of.
  rewrite !yield_from_each_cons. unfold Py.getitem, Py.get.
  destruct (a !! "fdBoundingPoly") as [fd|]; [|discriminate].
  destruct (fd !! "vertices") as [vs|] eqn:Evs; [|discriminate].
  destruct (a !! "boundingPoly") as [bp|]; [|discriminate].
  destruct (bp !! "vertices") as [ws|] eqn:Ews; [|discriminate].
  intros _. cbn [Py.bind]. rewrite Evs, Ews.
  cbn. rewrite app_nil_r. reflexivity.
Qed.

(** An annotation that lacks one of the polygons, or a polygon that
    lacks its vertices, makes the subscript raise [KeyError]. *)
Lemma annotation_missing_polygon (a : face_annotation) :
  both_polygons a = false ->
  exists key,
    Py.yield_from_each (fun name : string =>
        do poly <- Py.getitem a name;
        do vertices <- Py.getitem poly "vertices";
        Ok (map (fun vertice : vertex =>
                   {| x := Py.get vertice "x" 0; y := Py.get vertice "y" 0 |})
                vertices))
      ["fdBoundingPoly"; "boundingPoly"]
    = Raise (KeyError key).
Proof.
  unfold both_polygons, vertices_of.
  rewrite !yield_from_each_cons. unfold Py.getitem.
  destruct (a !! "fdBoundingPoly") as [fd|]; [|eexists; reflexivity].
  cbn [Py.bind].
  destruct (fd !! "vertices") as [vs|]; [|eexists; reflexivity].
  cbn [Py.bind].
  destruct (a !! "boundingPoly") as [bp|]; [|eexists; reflexivity].
  cbn [Py.bind].
  destruct (bp !! "vertices") as [ws|]; [discriminate|eexists; reflexivity].
Qed.

Lemma yield_from_each_key_error {A B} (f : A -> Py.result (list B))
      (ok : A -> bool) (l : list A) :
  (forall a, In a l ->
     if ok a then Py.is_ok (f a) = true else exists key, f a = Raise (KeyError key)) ->
  forallb ok l = false ->
  exists key, Py.yield_from_each f l = Raise (KeyError key).
Proof.
  induction l as [|a l IH]; intros Hall Hbad; simpl in Hbad; [discriminate|].
  rewrite yield_from_each_cons.
  pose proof (Hall a (or_introl eq_refl)) as Ha.
  destruct (ok a).
  - destruct (f a) as [bs|e]; [|discriminate Ha]. cbn [Py.bind].
    destruct IH as [key ->]; [intros b Hb; apply Hall; now right|exact Hbad|].
    now exists key.
  - destruct Ha as [key ->]. now exists key.
Qed.

Lemma vision_get_coords_missing_polygon (data : vision_data) :
  well_formed_vision data = false ->
  exists key, GoogleVisionAPIFaceDetectionResultFactory.get_coords data
              = Raise (KeyError key).
Proof.
  unfold well_formed_vision,
    GoogleVisionAPIFaceDetectionResultFactory.get_coords, Py.get.
  apply yield_from_each_key_error.
  intros response _.
  destruct (forallb both_polygons (default [] (response !! "faceAnnotations")))
    eqn:Hall.
  - rewrite forallb_forall in Hall.
    rewrite (yield_from_each_ok _ spec_annotation_points); [reflexivity|].
    intros a Ha. apply annotation_points. now apply Hall.
  - revert Hall. apply yield_from_each_key_error.
    intros a _. destruct (both_polygons a) eqn:Ha.
    + now rewrite annotation_points.
    + now apply annotation_missing_polygon.
Qed.

(** C6.  On an answer in which every face annotation has both polygons,
    the normalisation yields the vertices of [fdBoundingPoly], then those
    of [boundingPoly], for each annotation of each response entry in
    order, a missing [x] or [y] read as 0. *)
Theorem vision_get_coords_flattens (data : vision_data) :
  well_formed_vision data = true ->
  GoogleVisionAPIFaceDetectionResultFactory.get_coords data
  = Ok (spec_vision_points data).
Proof.
  unfold well_formed_vision, spec_vision_points,
    GoogleVisionAPIFaceDetectionResultFactory.get_coords, Py.get.
  intros Hwf. rewrite forallb_forall in Hwf.
  apply yield_from_each_ok.
  intros response Hin.
  specialize (Hwf response Hin). rewrite forallb_forall in Hwf.
  apply yield_from_each_ok.
  intros a Ha. apply annotation_points. now apply Hwf.
Qed.

Lemma vision_get_coords_flattens_witness :
  GoogleVisionAPIFaceDetectionResultFactory.get_coords Sample.vision_answer
  = Ok [ {| x := 1; y := 2 |}; {| x := 3; y := 4 |} ].
Proof.
  apply (vision_get_coords_flattens Sample.vision_answer).
  reflexivity.
Defined.

(** ** Vision API provider *)

Lemma request_raises (self : GoogleVisionAPIFaceDetection.t)
      (payload : list annotate_request) :
  GoogleVisionAPIFaceDetection.request self payload
  = Raise (AttributeError "'HttpRequest' object has no attribute 'exexute'").
Proof. reflexivity. Qed.

(** C4 on the code.  Whatever the world, the instance and the locator,
    calling the Vision API provider does not return a detection result:
    [request] looks up [exexute] on the request object, which raises
    [AttributeError] before the answer is read.  On [gs://bucket/x], with
    credentials resolved and a backend whose [execute] would succeed, the
    outcome is that exception. *)
Theorem vision_call_never_returns :
  (forall (W : World) (self : GoogleVisionAPIFaceDetection.t) (locator : string),
      Py.is_ok (snd (GoogleVisionAPIFaceDetection.call W self locator)) = false)
  /\ Py.is_ok (GoogleVisionAPIFaceDetection.init Sample.world) = true
  /\ execute (annotate Sample.world []) = Ok Sample.vision_answer
  /\ GoogleVisionAPIFaceDetection.call Sample.world
       {| GoogleVisionAPIFaceDetection.image_api := annotate Sample.world |}
       "gs://bucket/x"
     = ([], Raise (AttributeError "'HttpRequest' object has no attribute 'exexute'")).
Proof.
  split; [|repeat split].
  intros W self locator. unfold GoogleVisionAPIFaceDetection.call.
  destruct (is_localfile locator) as [is_local|e]; [|reflexivity].
  destruct (GoogleVisionAPIFaceDetection.build_payload W locator is_local)
    as [[log payload]|e]; [|reflexivity].
  cbn [snd]. rewrite request_raises. reflexivity.
Qed.

(** ** Project Oxford provider *)

Lemma repr_byte_plain (c : ascii) :
  plain_byte c = true -> Py.repr_byte Py.squote c = String c EmptyString.
Proof.
  unfold plain_byte, Py.repr_byte.
  intros H. repeat (apply andb_prop in H as [H ?]).
  apply negb_true_iff in H. rewrite H.
  match goal with Hb : negb (Ascii.eqb c Py.backslash) = true |- _ =>
    apply negb_true_iff in Hb; rewrite Hb end.
  cbn [orb].
  repeat match goal with
         | Hc : (_ <=? _)%N = true |- _ => apply N.leb_le in Hc
         | Hc : (_ <? _)%N = true |- _ => apply N.ltb_lt in Hc
         end.
  destruct (N.eqb_spec (N_of_ascii c) 9); [lia|].
  destruct (N.eqb_spec (N_of_ascii c) 10); [lia|].
  destruct (N.eqb_spec (N_of_ascii c) 13); [lia|].
  destruct (N.ltb_spec (N_of_ascii c) 32); [lia|].
  destruct (N.leb_spec 127 (N_of_ascii c)); [lia|].
  reflexivity.
Qed.

Lemma plain_contains_squote (b : string) :
  plain b = true -> Py.contains Py.squote b = false.
Proof.
  induction b as [|c b IH]; [reflexivity|]. cbn [plain Py.contains].
  intros H. apply andb_prop in H as [Hc Hb].
  rewrite (IH Hb), orb_false_r.
  unfold plain_byte in Hc. repeat (apply andb_prop in Hc as [Hc ?]).
  apply negb_true_iff in Hc. now rewrite Ascii.eqb_sym.
Qed.

Lemma repr_bytes_body_plain (b : string) :
  plain b = true -> Py.repr_bytes_body Py.squote b = b.
Proof.
  induction b as [|c b IH]; [reflexivity|]. cbn [plain Py.repr_bytes_body].
  intros H. apply andb_prop in H as [Hc Hb].
  rewrite (repr_byte_plain c Hc), (IH Hb). reflexivity.
Qed.

(** Python prints a plain body between [b'] and ['], byte for byte. *)
Lemma repr_bytes_plain (b : string) :
  plain b = true -> Py.repr_bytes b = "b'" +:+ b +:+ "'".
Proof.
  intros H. unfold Py.repr_bytes.
  rewrite (plain_contains_squote b H). cbn [andb].
  rewrite (repr_bytes_body_plain b H).
  reflexivity.
Qed.

(** C8.  For a response received from the backend, [request] raises
    [MSProjectoxfordDetectionError] exactly when the status code is not
    200, and the exception text then holds the status code in decimal,
    the reason phrase and the body as Python prints a [bytes] value. *)
Theorem ms_request_error_iff_not_200 (W : World) (headers : gmap string string)
        (payload : post_body) (res : Response) :
  requests_post W MSProjectoxfordDetection.endpoint headers payload = Ok res ->
  ((exists msg, MSProjectoxfordDetection.request W headers payload
                = Raise (MSProjectoxfordDetectionError msg))
   <-> status_code res <> 200)
  /\ (status_code res <> 200 ->
      MSProjectoxfordDetection.request W headers payload
      = Raise (MSProjectoxfordDetectionError
                 ("detection failed: status=" +:+ Py.str (status_code res)
                    +:+ ", reason=" +:+ reason res
                    +:+ ", content=" +:+ Py.repr_bytes (content res)))).
Proof.
  intros Hpost. unfold MSProjectoxfordDetection.request. rewrite Hpost.
  cbn [Py.bind].
  destruct (Z.eqb_spec (status_code res) 200) as [Heq|Hne]; cbn [negb].
  - split; [|congruence].
    split; [|congruence].
    intros [msg Hraise]. destruct (json res); discriminate Hraise.
  - split; [|reflexivity].
    split; [intros _; exact Hne|].
    intros _. eexists. reflexivity.
Qed.

Lemma ms_request_error_iff_not_200_witness :
  ((exists msg, MSProjectoxfordDetection.request Sample.world ∅ (Text "{}")
                = Raise (MSProjectoxfordDetectionError msg))
   <-> 401 <> 200)
  /\ (401 <> 200 ->
      MSProjectoxfordDetection.request Sample.world ∅ (Text "{}")
      = Raise (MSProjectoxfordDetectionError
                 "detection failed: status=401, reason=Access Denied, content=b'invalid key'")).
Proof.
  apply (ms_request_error_iff_not_200 Sample.world ∅ (Text "{}")
           {| status_code := 401; reason := "Access Denied";
              content := "invalid key"; json := None |}).
  reflexivity.
Defined.

(** ** Whole-image provider *)

(** C7.  When the dimension reader returns [(width, height)] for the
    bytes of the image, which are the content of the file for a locator
    without scheme and the body of the HTTP answer otherwise, the
    whole-image provider returns the result for that locator whose
    points are [(0,0)], [(0,height)], [(width,0)], [(width,height)], in
    this order, and whose data is the size. *)
Theorem whole_image_corners (W : World) (locator : string) (is_local : bool)
        (bytes : string) (width height : Z) :
  is_localfile locator = Ok is_local ->
  (if is_local then read_file W locator = Ok bytes
   else exists res, requests_get W locator = Ok res /\ content res = bytes) ->
  image_size W bytes = Ok (width, height) ->
  AllDetection.call W locator
  = Ok {| uri := locator;
          coords := [ {| x := 0; y := 0 |}; {| x := 0; y := height |};
                      {| x := width; y := 0 |}; {| x := width; y := height |} ];
          data := ImageSize (width, height) |}.
Proof.
  intros Hclass Hbytes Hsize. unfold AllDetection.call.
  rewrite Hclass. cbn [Py.bind]. destruct is_local.
  - unfold AllDetection.get_image_size_for_local.
    rewrite Hbytes. cbn [Py.bind]. rewrite Hsize. reflexivity.
  - destruct Hbytes as (res & Hget & Hcontent).
    unfold AllDetection.get_image_size_for_remote.
    rewrite Hget. cbn [Py.bind]. rewrite Hcontent, Hsize. reflexivity.
Qed.

Lemma whole_image_corners_witness :
  AllDetection.call Sample.world "face.jpg"
  = Ok {| uri := "face.jpg";
          coords := [ {| x := 0; y := 0 |}; {| x := 0; y := 50 |};
                      {| x := 40; y := 0 |}; {| x := 40; y := 50 |} ];
          data := ImageSize (40, 50) |}.
Proof.
  apply (whole_image_corners Sample.world "face.jpg" true "JFIF" 40 50);
    reflexivity.
Defined.

(** ** Locator classification *)

(** C9.  Classification reads the string alone: [is_localfile] answers
    true exactly when the string parses and the parsed scheme is empty,
    [is_gcs_image_uri] exactly when it parses and the scheme is [gs];
    [foo.jpg] is local, [gs://bucket/x] is a gs reference and not local,
    [https://x/y] is neither. *)
Theorem classification_by_scheme :
  (forall uri : string,
      is_localfile uri = Ok true
      <-> exists p, urllib_parse.urlparse uri = Ok p
                    /\ urllib_parse.scheme p = EmptyString)
  /\ (forall uri : string,
        is_gcs_image_uri uri = Ok true
        <-> exists p, urllib_parse.urlparse uri = Ok p
                      /\ urllib_parse.scheme p = "gs")
  /\ (is_localfile "foo.jpg" = Ok true /\ is_gcs_image_uri "foo.jpg" = Ok false)
  /\ (is_localfile "gs://bucket/x" = Ok false
      /\ is_gcs_image_uri "gs://bucket/x" = Ok true)
  /\ (is_localfile "https://x/y" = Ok false
      /\ is_gcs_image_uri "https://x/y" = Ok false).
Proof.
  split; [|split; [|repeat split]].
  - intros uri. unfold is_localfile.
    destruct (urllib_parse.urlparse uri) as [p|e]; cbn [Py.bind].
    + split.
      * intros [= Heq]. exists p. split; [reflexivity|].
        now apply String.eqb_eq.
      * intros (p' & [= <-] & Hs). rewrite Hs. reflexivity.
    + split; [discriminate|]. intros (p' & Hp & _). discriminate Hp.
  - intros uri. unfold is_gcs_image_uri.
    destruct (urllib_parse.urlparse uri) as [p|e]; cbn [Py.bind].
    + split.
      * intros [= Heq]. exists p. split; [reflexivity|].
        now apply String.eqb_eq.
      * intros (p' & [= <-] & Hs). rewrite Hs. reflexivity.
    + split; [discriminate|]. intros (p' & Hp & _). discriminate Hp.
Qed.

(** ** Entry point *)

(** C10.  Two runs of [main] in the same world whose command lines
    differ only in the value of [--crop] log and print the same; and
    whatever [main] prints is the URL that [AkamaiCrop] builds, with its
    default options, from the result of the selected provider. *)
Theorem main_ignores_crop_option :
  (forall (W : World) (mode target crop1 crop2 : string),
      main W {| mode := mode; target := target; crop := crop1 |}
      = main W {| mode := mode; target := target; crop := crop2 |})
  /\ (forall (W : World) (args : Namespace) (log printed : list string),
        main W args = (log, Ok printed) ->
        exists detect result url,
          call_detection W detect (target args) = (log, Ok result)
          /\ AkamaiCrop.call W result AkamaiCrop.defaults = Ok url
          /\ printed = [url]).
Proof.
  split.
  - intros W mode target crop1 crop2. reflexivity.
  - intros W args log printed. unfold main.
    destruct (GoogleVisionAPIFaceDetection.init W) as [gcp|e]; [|discriminate].
    destruct (do param <- get_ms_param W; Py.getitem param "API_TOKEN")
      as [token|e]; [|discriminate].
    destruct (query_detection _ (mode args)) as [detect|]; [|discriminate].
    destruct (call_detection W detect (target args)) as [log' [result|e]] eqn:Hdet;
      cbn [Py.bind]; [|discriminate].
    destruct (AkamaiCrop.call W result AkamaiCrop.defaults) as [url|e] eqn:Hurl;
      cbn [Py.bind]; [|discriminate].
    intros [= <- <-]. exists detect, result, url.
    split; [exact Hdet|]. split; [exact Hurl|reflexivity].
Qed.

(** * Further properties of the code *)

(** ** Bounding rectangle *)

Lemma min_of_nonempty (l : list Z) (m : Z) : is_minimum m l -> Py.min l = Ok m.
Proof.
  intros Hm. destruct l as [|a l]; [destruct Hm as [[] _]|].
  destruct (Py.min (a :: l)) as [m'|e] eqn:Hmin; [|discriminate Hmin].
  apply min_spec in Hmin. f_equal. exact (minimum_unique _ _ _ Hmin Hm).
Qed.

Lemma max_of_nonempty (l : list Z) (m : Z) : is_maximum m l -> Py.max l = Ok m.
Proof.
  intros Hm. destruct l as [|a l]; [destruct Hm as [[] _]|].
  destruct (Py.max (a :: l)) as [m'|e] eqn:Hmax; [|discriminate Hmax].
  apply max_spec in Hmax. f_equal. exact (maximum_unique _ _ _ Hmax Hm).
Qed.

(** [create_rect] returns the pair of corners exactly when the corners
    hold the component-wise minima and maxima. *)
Lemma create_rect_characterised (coords : list Coord) (start end_ : Coord) :
  AkamaiCrop.create_rect coords = Ok (start, end_)
  <-> is_minimum (x start) (map x coords) /\ is_minimum (y start) (map y coords)
      /\ is_maximum (x end_) (map x coords) /\ is_maximum (y end_) (map y coords).
Proof.
  split.
  - intros Hrect.
    assert (Hne : coords <> []).
    { intros ->. rewrite create_rect_empty in Hrect. discriminate Hrect. }
    destruct (create_rect_nonempty coords Hne) as (s & e & Hok & H).
    rewrite Hok in Hrect. injection Hrect as <- <-. exact H.
  - intros (Hminx & Hminy & Hmaxx & Hmaxy).
    unfold AkamaiCrop.create_rect.
    rewrite (min_of_nonempty _ _ Hminx), (min_of_nonempty _ _ Hminy),
      (max_of_nonempty _ _ Hmaxx), (max_of_nonempty _ _ Hmaxy).
    destruct start, end_. reflexivity.
Qed.

(** X1.  The rectangle returned by [create_rect] encloses every point,
    and each of its four sides passes through one of the points. *)
Theorem create_rect_encloses (coords : list Coord) (start end_ : Coord) :
  AkamaiCrop.create_rect coords = Ok (start, end_) ->
  (forall p, In p coords ->
     x start <= x p <= x end_ /\ y start <= y p <= y end_)
  /\ (exists p, In p coords /\ x p = x start)
  /\ (exists p, In p coords /\ y p = y start)
  /\ (exists p, In p coords /\ x p = x end_)
  /\ (exists p, In p coords /\ y p = y end_).
Proof.
  intros Hrect. apply create_rect_characterised in Hrect.
  destruct Hrect as ([Ix Lx] & [Iy Ly] & [Jx Mx] & [Jy My]).
  rewrite List.Forall_forall in Lx, Ly, Mx, My.
  split.
  - intros p Hp.
    pose proof (in_map x _ _ Hp) as Hx. pose proof (in_map y _ _ Hp) as Hy.
    specialize (Lx _ Hx). specialize (Mx _ Hx).
    specialize (Ly _ Hy). specialize (My _ Hy). lia.
  - apply in_map_iff in Ix as (p1 & E1 & H1).
    apply in_map_iff in Iy as (p2 & E2 & H2).
    apply in_map_iff in Jx as (p3 & E3 & H3).
    apply in_map_iff in Jy as (p4 & E4 & H4).
    repeat split; eauto.
Qed.

Lemma create_rect_encloses_witness :
  (forall p, In p Sample.doctest_coords -> 20 <= x p <= 29 /\ 21 <= y p <= 30)
  /\ (exists p, In p Sample.doctest_coords /\ x p = 20)
  /\ (exists p, In p Sample.doctest_coords /\ y p = 21)
  /\ (exists p, In p Sample.doctest_coords /\ x p = 29)
  /\ (exists p, In p Sample.doctest_coords /\ y p = 30).
Proof.
  apply (create_rect_encloses Sample.doctest_coords
           {| x := 20; y := 21 |} {| x := 29; y := 30 |}).
  reflexivity.
Defined.

Lemma minimum_permutation (m : Z) (l l' : list Z) :
  Permutation l l' -> is_minimum m l -> is_minimum m l'.
Proof.
  intros Hp [Hin Hall]. split.
  - eapply Permutation_in; eassumption.
  - rewrite List.Forall_forall in *. intros z Hz. apply Hall.
    eapply Permutation_in; [symmetry; exact Hp|exact Hz].
Qed.

Lemma maximum_permutation (m : Z) (l l' : list Z) :
  Permutation l l' -> is_maximum m l -> is_maximum m l'.
Proof.
  intros Hp [Hin Hall]. split.
  - eapply Permutation_in; eassumption.
  - rewrite List.Forall_forall in *. intros z Hz. apply Hall.
    eapply Permutation_in; [symmetry; exact Hp|exact Hz].
Qed.

(** X2.  The order of the points does not matter: a rearranged sequence
    gives the same outcome of [create_rect]. *)
Theorem create_rect_permutation (coords coords' : list Coord) :
  Permutation coords coords' ->
  AkamaiCrop.create_rect coords = AkamaiCrop.create_rect coords'.
Proof.
  intros Hp.
  destruct coords as [|c cs].
  - apply Permutation_nil in Hp as ->. reflexivity.
  - destruct (create_rect_nonempty (c :: cs)) as (s & e & Hok & H); [discriminate|].
    rewrite Hok. symmetry. apply create_rect_characterised.
    destruct H as (Hminx & Hminy & Hmaxx & Hmaxy).
    pose proof (Permutation_map x Hp) as Px.
    pose proof (Permutation_map y Hp) as Py.
    repeat split;
      try (eapply minimum_permutation; eassumption);
      try (eapply maximum_permutation; eassumption).
Qed.

Lemma create_rect_permutation_witness :
  AkamaiCrop.create_rect Sample.doctest_coords
  = AkamaiCrop.create_rect
      [ {| x := 29; y := 21 |}; {| x := 20; y := 30 |}; {| x := 25; y := 24 |} ].
Proof.
  apply (create_rect_permutation Sample.doctest_coords).
  unfold Sample.doctest_coords.
  eapply perm_trans; [apply perm_skip, perm_swap|].
  apply perm_swap.
Defined.

Lemma minimum_app (m1 m2 : Z) (l1 l2 : list Z) :
  is_minimum m1 l1 -> is_minimum m2 l2 -> is_minimum (Z.min m1 m2) (l1 ++ l2).
Proof.
  intros [I1 A1] [I2 A2]. split.
  - apply in_or_app. destruct (Z.min_spec m1 m2) as [[_ ->]|[_ ->]]; auto.
  - apply Forall_app. split.
    + eapply Forall_impl; [exact A1|]. simpl. intros; lia.
    + eapply Forall_impl; [exact A2|]. simpl. intros; lia.
Qed.

Lemma maximum_app (m1 m2 : Z) (l1 l2 : list Z) :
  is_maximum m1 l1 -> is_maximum m2 l2 -> is_maximum (Z.max m1 m2) (l1 ++ l2).
Proof.
  intros [I1 A1] [I2 A2]. split.
  - apply in_or_app. destruct (Z.max_spec m1 m2) as [[_ ->]|[_ ->]]; auto.
  - apply Forall_app. split.
    + eapply Forall_impl; [exact A1|]. simpl. intros; lia.
    + eapply Forall_impl; [exact A2|]. simpl. intros; lia.
Qed.

(** X3.  The rectangle of two sequences put together is the smallest
    rectangle that holds the rectangles of both. *)
Theorem create_rect_app (a b : list Coord) (s1 e1 s2 e2 : Coord) :
  AkamaiCrop.create_rect a = Ok (s1, e1) ->
  AkamaiCrop.create_rect b = Ok (s2, e2) ->
  AkamaiCrop.create_rect (a ++ b)
  = Ok ({| x := Z.min (x s1) (x s2); y := Z.min (y s1) (y s2) |},
        {| x := Z.max (x e1) (x e2); y := Z.max (y e1) (y e2) |}).
Proof.
  intros Ha Hb.
  apply create_rect_characterised in Ha as (A1 & A2 & A3 & A4).
  apply create_rect_characterised in Hb as (B1 & B2 & B3 & B4).
  apply create_rect_characterised. cbn [x y]. rewrite !map_app.
  split; [now apply minimum_app|].
  split; [now apply minimum_app|].
  split; now apply maximum_app.
Qed.

Lemma create_rect_app_witness :
  AkamaiCrop.create_rect
    (Sample.doctest_coords ++ [ {| x := 1; y := 50 |}; {| x := 22; y := 2 |} ])
  = Ok ({| x := 1; y := 2 |}, {| x := 29; y := 50 |}).
Proof.
  apply (create_rect_app Sample.doctest_coords
           [ {| x := 1; y := 50 |}; {| x := 22; y := 2 |} ]
           {| x := 20; y := 21 |} {| x := 29; y := 30 |}
           {| x := 1; y := 2 |} {| x := 22; y := 50 |}); reflexivity.
Defined.

(** X4.  Bounding the two corners of a rectangle that [create_rect]
    returned gives the same rectangle again. *)
Theorem create_rect_of_corners (coords : list Coord) (start end_ : Coord) :
  AkamaiCrop.create_rect coords = Ok (start, end_) ->
  AkamaiCrop.create_rect [start; end_] = Ok (start, end_).
Proof.
  intros Hrect.
  assert (Hne : coords <> []).
  { intros ->. rewrite create_rect_empty in Hrect. discriminate Hrect. }
  apply create_rect_characterised in Hrect
    as ([Ix Lx] & [Iy Ly] & [Jx Mx] & [Jy My]).
  rewrite List.Forall_forall in Lx, Ly, Mx, My.
  specialize (Lx _ Jx). specialize (Ly _ Jy).
  apply create_rect_characterised. cbn [map].
  repeat split; try (now left); try (right; now left);
    repeat constructor; lia.
Qed.

Lemma create_rect_of_corners_witness :
  AkamaiCrop.create_rect [ {| x := 20; y := 21 |}; {| x := 29; y := 30 |} ]
  = Ok ({| x := 20; y := 21 |}, {| x := 29; y := 30 |}).
Proof.
  apply (create_rect_of_corners Sample.doctest_coords). reflexivity.
Defined.

(** ** Formatted integers and the strings built from them *)

Lemma pretty_N_char_int (n : N) : Py.contains (pretty_N_char n) int_chars = true.
Proof. unfold pretty_N_char. repeat case_match; reflexivity. Qed.

Lemma pretty_N_go_int (n : N) (s : string) :
  urllib_parse.all_in int_chars s = true ->
  urllib_parse.all_in int_chars (pretty_N_go n s) = true.
Proof.
  revert s. induction (N.lt_wf_0 n) as [n _ IH]; intros s Hs.
  destruct (N.eq_dec n 0%N) as [->|Hn]; [exact Hs|].
  rewrite pretty_N_go_step by lia.
  apply IH; [apply N.div_lt; lia|].
  cbn [urllib_parse.all_in]. now rewrite pretty_N_char_int, Hs.
Qed.

Lemma pretty_N_int (n : N) : urllib_parse.all_in int_chars (pretty n) = true.
Proof.
  unfold pretty, pretty_N. case_decide; [reflexivity|].
  now apply pretty_N_go_int.
Qed.

Lemma str_int (z : Z) : urllib_parse.all_in int_chars (Py.str z) = true.
Proof.
  unfold Py.str, pretty, pretty_Z. destruct z as [|p|p]; [reflexivity| |].
  - apply pretty_N_int.
  - change (urllib_parse.all_in int_chars (String "-" (pretty (N.pos p))) = true).
    cbn [urllib_parse.all_in]. now rewrite (pretty_N_int (N.pos p)).
Qed.

Lemma all_in_excludes (chars s : string) (c : ascii) :
  Py.contains c chars = false ->
  urllib_parse.all_in chars s = true -> Py.contains c s = false.
Proof.
  intros Hc. induction s as [|a s IH]; [reflexivity|].
  cbn [urllib_parse.all_in Py.contains]. intros H.
  apply andb_prop in H as [Ha Hs]. rewrite (IH Hs), orb_false_r.
  destruct (Ascii.eqb_spec c a) as [->|]; [congruence|reflexivity].
Qed.

(** Two strings cut at the first occurrence of a separator agree part
    by part. *)
Lemma cut_at_separator (sep : ascii) (u u' v v' : string) :
  Py.contains sep u = false -> Py.contains sep u' = false ->
  u +:+ String sep v = u' +:+ String sep v' -> u = u' /\ v = v'.
Proof.
  revert u'. induction u as [|a u IH]; intros [|a' u']; cbn [Py.contains].
  - intros _ _ [= ->]. now split.
  - intros _ H [= E _]. subst a'. rewrite Ascii.eqb_refl in H. discriminate H.
  - intros H _ [= E _]. subst a. rewrite Ascii.eqb_refl in H. discriminate H.
  - intros H H' [= -> E].
    apply orb_false_elim in H as [_ H]. apply orb_false_elim in H' as [_ H'].
    destruct (IH u' H H' E) as [-> ->]. now split.
Qed.

Lemma str_cut (sep : ascii) (a b : Z) (v v' : string) :
  Py.contains sep int_chars = false ->
  Py.str a +:+ String sep v = Py.str b +:+ String sep v' -> a = b /\ v = v'.
Proof.
  intros Hsep E.
  apply cut_at_separator in E as [E ->];
    try (apply (all_in_excludes int_chars); [exact Hsep|apply str_int]).
  split; [|reflexivity]. now apply (inj pretty).
Qed.

(** X5.  The crop value determines the rectangle: two pairs of corners
    formatted to the same [crop] parameter are the same pair. *)
Theorem crop_value_injective (start end_ start' end_' : Coord) :
  AkamaiCrop.crop_value start end_ = AkamaiCrop.crop_value start' end_' ->
  start = start' /\ end_ = end_'.
Proof.
  unfold AkamaiCrop.crop_value. intros E.
  apply (str_cut ":") in E as [Ew E]; [|reflexivity].
  apply (str_cut ";") in E as [Eh E]; [|reflexivity].
  apply (str_cut ",") in E as [Ex E]; [|reflexivity].
  apply (inj pretty) in E.
  destruct start as [sx sy], end_ as [ex ey], start' as [sx' sy'], end_' as [ex' ey'].
  cbn [x y] in *. split; f_equal; lia.
Qed.

Lemma crop_value_injective_witness :
  {| x := 20; y := 21 |} = {| x := 20; y := 21 |}
  /\ {| x := 29; y := 30 |} = {| x := 29; y := 30 |}.
Proof.
  apply (crop_value_injective {| x := 20; y := 21 |} {| x := 29; y := 30 |}
           {| x := 20; y := 21 |} {| x := 29; y := 30 |}).
  reflexivity.
Defined.

(** C1 on the code.  [build_uri] formats [end.y - end.x] as the second
    field of [crop], next to [end.x - start.x] as the first: the height
    written is [maxY - maxX], and it agrees with the [maxY - minX] of the
    claim exactly when the rectangle has no width.  On the three points
    of the docstring of [__call__], whose minima are 20 and 21 and maxima
    29 and 30, the encoder writes [crop=9:1;20,21] where the claim has
    [9:10;20,21], and the URL returned is not the one that docstring
    gives. *)
Theorem crop_height_subtracts_max_x :
  (forall start end_ : Coord,
      AkamaiCrop.crop_value start end_
      = spec_crop_value (x start) (y start) (x end_) (y end_)
      <-> x end_ = x start)
  /\ is_minimum 20 (map x Sample.doctest_coords)
  /\ is_minimum 21 (map y Sample.doctest_coords)
  /\ is_maximum 29 (map x Sample.doctest_coords)
  /\ is_maximum 30 (map y Sample.doctest_coords)
  /\ AkamaiCrop.create_rect Sample.doctest_coords
     = Ok ({| x := 20; y := 21 |}, {| x := 29; y := 30 |})
  /\ AkamaiCrop.crop_value {| x := 20; y := 21 |} {| x := 29; y := 30 |} = "9:1;20,21"
  /\ spec_crop_value 20 21 29 30 = "9:10;20,21"
  /\ AkamaiCrop.call Sample.world Sample.doctest_result AkamaiCrop.defaults
     = Ok "https://example.com/example.jpg?crop=9:1%3B20,21&resize=*:*"
  /\ AkamaiCrop.call Sample.world Sample.doctest_result AkamaiCrop.defaults
     <> Ok "https://example.com/example.jpg?crop=29:30%3B20,21".
Proof.
  split.
  { intros start end_. unfold AkamaiCrop.crop_value, spec_crop_value. split.
    - intros E.
      apply (str_cut ":") in E as [_ E]; [|reflexivity].
      apply (str_cut ";") in E as [E _]; [|reflexivity].
      lia.
    - intros ->. reflexivity. }
  split; [apply min_spec; reflexivity|].
  split; [apply min_spec; reflexivity|].
  split; [apply max_spec; reflexivity|].
  split; [apply max_spec; reflexivity|].
  repeat (split; [reflexivity|]).
  discriminate.
Qed.

(** X6.  [Coord.__eq__] answers true exactly on equal points, and two
    points print alike with [__repr__] exactly when they are equal. *)
Theorem Coord_eq_repr (a b : Coord) :
  (Coord_eq a b = true <-> a = b) /\ (Coord_repr a = Coord_repr b <-> a = b).
Proof.
  split; split.
  - unfold Coord_eq. intros H. apply andb_prop in H as [Hx Hy].
    apply Z.eqb_eq in Hx, Hy. destruct a, b. cbn [x y] in *. now subst.
  - intros ->. unfold Coord_eq. now rewrite !Z.eqb_refl.
  - unfold Coord_repr. intros E.
    injection E as E.
    apply (str_cut ",") in E as [Ex E]; [|reflexivity].
    injection E as E.
    apply (str_cut ")") in E as [Ey _]; [|reflexivity].
    destruct a, b. cbn [x y] in *. now subst.
  - now intros ->.
Qed.

(** ** Encoding the crop URL *)

(** X7.  On a detection result without points [AkamaiCrop.__call__]
    raises the [ValueError] of [min], whatever the URL, the options and
    the URL library: the URL is not looked at before the rectangle is
    computed. *)
Theorem call_without_points_raises (W : World) (r : DetectionResult)
        (k : AkamaiCrop.kwds) :
  coords r = [] ->
  AkamaiCrop.call W r k = Raise (ValueError "min() arg is an empty sequence").
Proof.
  intros Hempty. unfold AkamaiCrop.call. rewrite Hempty. reflexivity.
Qed.

Lemma call_without_points_raises_witness :
  AkamaiCrop.call Sample.world Scenario.no_points Sample.background_kwds
  = Raise (ValueError "min() arg is an empty sequence").
Proof.
  apply (call_without_points_raises Sample.world Scenario.no_points
           Sample.background_kwds).
  reflexivity.
Defined.

(** X8.  Without a background, be it absent or the empty string, the
    result of [build_uri] depends on the options [width] and [height]
    only: [composite_to], [bg_width] and [bg_height] play no role. *)
Theorem build_uri_without_background (W : World) (uri : string) (start end_ : Coord)
        (k k' : AkamaiCrop.kwds) :
  (AkamaiCrop.bg_url k = None \/ AkamaiCrop.bg_url k = Some EmptyString) ->
  (AkamaiCrop.bg_url k' = None \/ AkamaiCrop.bg_url k' = Some EmptyString) ->
  AkamaiCrop.width k = AkamaiCrop.width k' ->
  AkamaiCrop.height k = AkamaiCrop.height k' ->
  AkamaiCrop.build_uri W uri start end_ k = AkamaiCrop.build_uri W uri start end_ k'.
Proof.
  intros Hbg Hbg' Hw Hh. unfold AkamaiCrop.build_uri.
  destruct (furl_parse W uri) as [f|e]; [|reflexivity]. cbn [Py.bind].
  rewrite Hw, Hh.
  destruct Hbg as [-> | ->], Hbg' as [-> | ->]; reflexivity.
Qed.

Lemma build_uri_without_background_witness :
  AkamaiCrop.build_uri Sample.world "https://example.com/test.jpg"
    {| x := 10; y := 20 |} {| x := 30; y := 40 |} AkamaiCrop.defaults
  = AkamaiCrop.build_uri Sample.world "https://example.com/test.jpg"
      {| x := 10; y := 20 |} {| x := 30; y := 40 |}
      {| AkamaiCrop.width := "*"; AkamaiCrop.height := "*";
         AkamaiCrop.composite_to := "0.0";
         AkamaiCrop.bg_url := Some EmptyString;
         AkamaiCrop.bg_width := "100"; AkamaiCrop.bg_height := "200" |}.
Proof.
  apply (build_uri_without_background Sample.world "https://example.com/test.jpg"
           {| x := 10; y := 20 |} {| x := 30; y := 40 |});
    [now left|now right|reflexivity|reflexivity].
Defined.

(** X9.  A URL that the URL library rejects makes [build_uri] raise the
    library's exception: the source URL in every case, the background
    URL whenever one is passed, although the source URL was accepted. *)
Theorem build_uri_rejected_url (W : World) (uri : string) (start end_ : Coord)
        (k : AkamaiCrop.kwds) (e : Py.exception) :
  (furl_parse W uri = Raise e \/
   exists f c bg, furl_parse W uri = Ok f
                  /\ AkamaiCrop.bg_url k = Some (String c bg)
                  /\ furl_parse W (String c bg) = Raise e) ->
  AkamaiCrop.build_uri W uri start end_ k = Raise e.
Proof.
  unfold AkamaiCrop.build_uri.
  intros [Hsrc | (f & c & bg & Hsrc & Hbg & Hrej)]; rewrite Hsrc; [reflexivity|].
  cbn [Py.bind]. rewrite Hbg, Hrej. reflexivity.
Qed.

Lemma build_uri_rejected_url_witness :
  AkamaiCrop.build_uri Scenario.strict_world "https://example.com/test.jpg"
    {| x := 10; y := 20 |} {| x := 30; y := 40 |}
    {| AkamaiCrop.width := "*"; AkamaiCrop.height := "*";
       AkamaiCrop.composite_to := "*.*";
       AkamaiCrop.bg_url := Some Scenario.rejected;
       AkamaiCrop.bg_width := "*"; AkamaiCrop.bg_height := "*" |}
  = Raise (ValueError "Invalid port").
Proof.
  apply (build_uri_rejected_url Scenario.strict_world). right.
  eexists _, _, _. split; [reflexivity|]. split; reflexivity.
Defined.



(** ** Providers followed by the encoder *)

(** X11.  The points of the whole-image provider, for an image of
    non-negative width and height, bound the rectangle from [(0,0)] to
    [(width,height)]; the encoder then writes
    [crop=width:(height-width);0,0] on the locator. *)
Theorem whole_image_crop (W : World) (locator : string) (width height : Z)
        (k : AkamaiCrop.kwds) (f : furl.t) :
  0 <= width -> 0 <= height ->
  furl_parse W locator = Ok f ->
  AkamaiCrop.bg_url k = None ->
  AkamaiCrop.create_rect (coords (AllDetectionResultFactory.call locator (width, height)))
  = Ok ({| x := 0; y := 0 |}, {| x := width; y := height |})
  /\ AkamaiCrop.call W (AllDetectionResultFactory.call locator (width, height)) k
     = Ok (furl_url W
             (furl.set_arg
                (furl.set_arg f "crop"
                   (Py.str width +:+ ":" +:+ Py.str (height - width) +:+ ";0,0"))
                "resize" (AkamaiCrop.width k +:+ ":" +:+ AkamaiCrop.height k))).
Proof.
  intros Hw Hh Hf Hbg.
  assert (Hrect :
    AkamaiCrop.create_rect (coords (AllDetectionResultFactory.call locator (width, height)))
    = Ok ({| x := 0; y := 0 |}, {| x := width; y := height |})).
  { apply create_rect_characterised. cbn.
    repeat split; try (now left); try (do 3 right; now left);
      repeat constructor; lia. }
  split; [exact Hrect|].
  unfold AkamaiCrop.call. rewrite Hrect. cbn [Py.bind].
  unfold AkamaiCrop.build_uri. cbn [uri AllDetectionResultFactory.call].
  rewrite Hf, Hbg. cbn [Py.bind].
  unfold AkamaiCrop.crop_value. cbn [x y]. rewrite Z.sub_0_r. reflexivity.
Qed.

Lemma whole_image_crop_witness :
  AkamaiCrop.create_rect (coords (AllDetectionResultFactory.call "face.jpg" (40, 50)))
  = Ok ({| x := 0; y := 0 |}, {| x := 40; y := 50 |})
  /\ AkamaiCrop.call Sample.world (AllDetectionResultFactory.call "face.jpg" (40, 50))
       AkamaiCrop.defaults
     = Ok "face.jpg?crop=40:10%3B0,0&resize=*:*".
Proof.
  apply (whole_image_crop Sample.world "face.jpg" 40 50 AkamaiCrop.defaults
           {| furl.base := "face.jpg"; furl.args := [] |});
    [lia|lia|reflexivity|reflexivity].
Defined.

(** X12.  For one face whose rectangle has non-negative width and
    height, normalising the answer and bounding the points gives back
    the face rectangle: from [(left,top)] to [(left+width,top+height)]. *)
Theorem ms_face_rect_round_trip (response : gmap string face_rectangle) (r : Rectangle) :
  rectangle_of response = Some r ->
  0 <= width r -> 0 <= height r ->
  (do points <- MSProjectoxfordDetectionResultFactory.get_coords [response];
   AkamaiCrop.create_rect points)
  = Ok ({| x := left r; y := top r |},
        {| x := left r + width r; y := top r + height r |}).
Proof.
  intros Hr Hw Hh. rewrite (rectangle_points response r Hr). cbn [Py.bind].
  apply create_rect_characterised. cbn.
  repeat split; try (now left); try (do 2 right; now left);
    repeat constructor; lia.
Qed.

Lemma ms_face_rect_round_trip_witness :
  (do points <- MSProjectoxfordDetectionResultFactory.get_coords [Sample.one_face];
   AkamaiCrop.create_rect points)
  = Ok ({| x := 5; y := 6 |}, {| x := 15; y := 26 |}).
Proof.
  apply (ms_face_rect_round_trip Sample.one_face
           {| left := 5; top := 6; width := 10; height := 20 |});
    [reflexivity|cbn; lia|cbn; lia].
Defined.

(** ** Project Oxford provider, further *)

Lemma yield_from_each_app {A B} (f : A -> Py.result (list B)) (l1 l2 : list A) :
  Py.yield_from_each f (l1 ++ l2)
  = do bs1 <- Py.yield_from_each f l1;
    do bs2 <- Py.yield_from_each f l2;
    Ok (bs1 ++ bs2).
Proof.
  induction l1 as [|a l1 IH].
  - cbn. destruct (Py.yield_from_each f l2); reflexivity.
  - rewrite <- app_comm_cons, !yield_from_each_cons, IH.
    destruct (f a) as [bs|e]; [|reflexivity]. cbn [Py.bind].
    destruct (Py.yield_from_each f l1) as [bs1|e]; [|reflexivity]. cbn [Py.bind].
    destruct (Py.yield_from_each f l2) as [bs2|e]; [|reflexivity]. cbn [Py.bind].
    now rewrite app_assoc.
Qed.

(** X13.  Normalising two answers put together is normalising the first,
    then the second, and appending the points; the first [KeyError] in
    that order is the one raised. *)
Theorem ms_get_coords_app (data1 data2 : ms_data) :
  MSProjectoxfordDetectionResultFactory.get_coords (data1 ++ data2)
  = do points1 <- MSProjectoxfordDetectionResultFactory.get_coords data1;
    do points2 <- MSProjectoxfordDetectionResultFactory.get_coords data2;
    Ok (points1 ++ points2).
Proof. apply yield_from_each_app. Qed.

(** X14.  Whenever the normalisation of a Project Oxford answer
    succeeds, it yields four points for each entry of the answer. *)
Theorem ms_get_coords_length (data : ms_data) (points : list Coord) :
  MSProjectoxfordDetectionResultFactory.get_coords data = Ok points ->
  length points = (4 * length data)%nat.
Proof.
  revert points. induction data as [|response data IH]; intros points.
  - intros [= <-]. reflexivity.
  - rewrite ms_get_coords_cons.
    destruct (rectangle_of response) as [r|] eqn:Hr.
    + rewrite (rectangle_points response r Hr). cbn [Py.bind].
      destruct (MSProjectoxfordDetectionResultFactory.get_coords data) as [rest|e];
        [|discriminate].
      cbn [Py.bind]. intros [= <-].
      cbn [length]. rewrite (IH rest eq_refl). lia.
    + destruct (rectangle_missing response Hr) as [key ->]. discriminate.
Qed.

Lemma ms_get_coords_length_witness :
  length [ {| x := 5; y := 6 |}; {| x := 5; y := 26 |};
           {| x := 15; y := 26 |}; {| x := 15; y := 6 |} ]
  = (4 * length [Sample.one_face])%nat.
Proof.
  apply (ms_get_coords_length [Sample.one_face]). reflexivity.
Defined.

(** What [__call__] returns once the backend has answered. *)
Lemma ms_call_answered (W : World) (self : MSProjectoxfordDetection.t)
      (locator : string) (is_local : bool) (body : post_body) (res : Response) :
  is_localfile locator = Ok is_local ->
  MSProjectoxfordDetection.build_payload W locator is_local = Ok body ->
  requests_post W MSProjectoxfordDetection.endpoint
    (MSProjectoxfordDetection.build_headers self is_local) body = Ok res ->
  MSProjectoxfordDetection.call W self locator
  = if status_code res =? 200
    then match json res with
         | Some decoded =>
             do points <- MSProjectoxfordDetectionResultFactory.get_coords decoded;
             Ok {| uri := locator; coords := points; data := MSData decoded |}
         | None => Raise (ValueError "Expecting value")
         end
    else Raise (MSProjectoxfordDetectionError
                  (MSProjectoxfordDetection.failure_message res)).
Proof.
  intros Hclass Hbody Hpost.
  unfold MSProjectoxfordDetection.call. rewrite Hclass. cbn [Py.bind].
  rewrite Hbody. cbn [Py.bind].
  unfold MSProjectoxfordDetection.request. rewrite Hpost. cbn [Py.bind].
  destruct (status_code res =? 200); cbn [negb]; [|reflexivity].
  destruct (json res); reflexivity.
Qed.





(** ** Vision API provider, further *)

Lemma annotation_key_error (a : face_annotation) :
  both_polygons a = false ->
  exists key,
    In key ["fdBoundingPoly"; "boundingPoly"; "vertices"]
    /\ Py.yield_from_each (fun name : string =>
           do poly <- Py.getitem a name;
           do vertices <- Py.getitem poly "vertices";
           Ok (map (fun vertice : vertex =>
                      {| x := Py.get vertice "x" 0; y := Py.get vertice "y" 0 |})
                   vertices))
         ["fdBoundingPoly"; "boundingPoly"]
       = Raise (KeyError key).
Proof.
  unfold both_polygons, vertices_of.
  rewrite !yield_from_each_cons. unfold Py.getitem.
  destruct (a !! "fdBoundingPoly") as [fd|];
    [|exists "fdBoundingPoly"; split; [now left|reflexivity]].
  cbn [Py.bind].
  destruct (fd !! "vertices") as [vs|];
    [|exists "vertices"; split; [do 2 right; now left|reflexivity]].
  cbn [Py.bind].
  destruct (a !! "boundingPoly") as [bp|];
    [|exists "boundingPoly"; split; [right; now left|reflexivity]].
  cbn [Py.bind].
  destruct (bp !! "vertices") as [ws|]; [discriminate|].
  exists "vertices". split; [do 2 right; now left|reflexivity].
Qed.

Lemma yield_from_each_raises {A B} (f : A -> Py.result (list B))
      (ok : A -> bool) (raised : Py.exception -> Prop) (l : list A) :
  (forall a, In a l ->
     if ok a then Py.is_ok (f a) = true else exists e, raised e /\ f a = Raise e) ->
  if forallb ok l then Py.is_ok (Py.yield_from_each f l) = true
  else exists e, raised e /\ Py.yield_from_each f l = Raise e.
Proof.
  induction l as [|a l IH]; intros Hall; [reflexivity|].
  rewrite yield_from_each_cons. cbn [forallb].
  pose proof (Hall a (or_introl eq_refl)) as Ha.
  assert (Hl : forall b, In b l ->
             if ok b then Py.is_ok (f b) = true
             else exists e, raised e /\ f b = Raise e)
    by (intros b Hb; apply Hall; now right).
  specialize (IH Hl).
  destruct (ok a); cbn [andb].
  - destruct (f a) as [bs|e]; [|discriminate Ha]. cbn [Py.bind].
    destruct (forallb ok l).
    + destruct (Py.yield_from_each f l); [reflexivity|discriminate IH].
    + destruct IH as (e & He & ->). now exists e.
  - destruct Ha as (e & He & ->). now exists e.
Qed.

(** X18.  The normalisation of a Vision API answer succeeds exactly when
    every face annotation has both polygons, each with its vertices;
    otherwise it raises [KeyError] for [fdBoundingPoly], [boundingPoly]
    or [vertices] and yields no point. *)
Theorem vision_get_coords_outcome (data : vision_data) :
  if well_formed_vision data
  then Py.is_ok (GoogleVisionAPIFaceDetectionResultFactory.get_coords data) = true
  else exists key,
         In key ["fdBoundingPoly"; "boundingPoly"; "vertices"]
         /\ GoogleVisionAPIFaceDetectionResultFactory.get_coords data
            = Raise (KeyError key).
Proof.
  unfold well_formed_vision,
    GoogleVisionAPIFaceDetectionResultFactory.get_coords, Py.get.
  pose (raised := fun e : Py.exception =>
          exists key, In key ["fdBoundingPoly"; "boundingPoly"; "vertices"]
                      /\ e = KeyError key).
  match goal with
  | |- if forallb ?ok ?l then Py.is_ok (Py.yield_from_each ?f ?l) = true else _ =>
      pose proof (yield_from_each_raises f ok raised l) as Hout
  end.
  match type of Hout with
  | ?P -> _ => assert (Hall : P); [|specialize (Hout Hall)]
  end.
  { intros response _.
    match goal with
    | |- if forallb ?ok ?l then Py.is_ok (Py.yield_from_each ?f ?l) = true else _ =>
        apply (yield_from_each_raises f ok raised l)
    end.
    intros a _. destruct (both_polygons a) eqn:Ha.
    - pose proof (annotation_points a Ha) as Hpoints.
      unfold Py.get in Hpoints. now rewrite Hpoints.
    - destruct (annotation_key_error a Ha) as (key & Hkey & Hraise).
      unfold Py.get in Hraise. rewrite Hraise.
      exists (KeyError key). split; [now exists key|reflexivity]. }
  destruct (forallb _ _); [exact Hout|].
  destruct Hout as (e & (key & Hkey & ->) & Hraise). now exists key.
Qed.

(** X19.  An answer in which no response entry has a face annotation,
    for instance one without [responses], normalises to a result
    without points, and the encoder then raises the [ValueError] of
    [min]: no URL is built when no face was found. *)
Theorem vision_no_faces (W : World) (uri : string) (data : vision_data)
        (k : AkamaiCrop.kwds) :
  (forall response : annotate_response,
      In response (Py.get data "responses" []) ->
      Py.get response "faceAnnotations" [] = []) ->
  GoogleVisionAPIFaceDetectionResultFactory.call uri data
  = Ok {| uri := uri; coords := []; data := VisionData data |}
  /\ (do result <- GoogleVisionAPIFaceDetectionResultFactory.call uri data;
      AkamaiCrop.call W result k)
     = Raise (ValueError "min() arg is an empty sequence").
Proof.
  intros Hnone.
  assert (Hcoords : GoogleVisionAPIFaceDetectionResultFactory.get_coords data = Ok []).
  { unfold GoogleVisionAPIFaceDetectionResultFactory.get_coords.
    rewrite (yield_from_each_ok _ (fun _ => [])).
    - f_equal. generalize (Py.get data "responses" []).
      intros l. induction l as [|? ? IH]; [reflexivity|exact IH].
    - intros response Hin. now rewrite (Hnone response Hin). }
  unfold GoogleVisionAPIFaceDetectionResultFactory.call. rewrite Hcoords.
  split; reflexivity.
Qed.

Lemma vision_no_faces_witness :
  GoogleVisionAPIFaceDetectionResultFactory.call "gs://bucket/x" ∅
  = Ok {| uri := "gs://bucket/x"; coords := []; data := VisionData ∅ |}
  /\ (do result <- GoogleVisionAPIFaceDetectionResultFactory.call "gs://bucket/x" ∅;
      AkamaiCrop.call Sample.world result AkamaiCrop.defaults)
     = Raise (ValueError "min() arg is an empty sequence").
Proof.
  apply (vision_no_faces Sample.world "gs://bucket/x" ∅ AkamaiCrop.defaults).
  intros response Hin. destruct Hin.
Defined.

(** X20.  The payload built for a locator is one request for
    [FACE_DETECTION] with at most 4 results.  A local file goes in as
    the base64 text of its bytes and nothing is logged; any other
    locator goes in as [gcsImageUri] whatever its scheme, and an error
    line is logged exactly when the scheme is not [gs]. *)
Theorem vision_build_payload (W : World) (locator : string) (is_local : bool)
        (log : list string) (payload : list annotate_request) :
  GoogleVisionAPIFaceDetection.build_payload W locator is_local = Ok (log, payload) ->
  exists img,
    payload = [ {| image := img; feature_type := "FACE_DETECTION"; maxResults := 4 |} ]
    /\ if is_local
       then log = [] /\ exists bytes, read_file W locator = Ok bytes
                                      /\ img = Content (b64encode W bytes)
       else img = GcsImageUri locator
            /\ exists gcs, is_gcs_image_uri locator = Ok gcs
                           /\ log = if gcs then []
                                    else ["Must be a GCS URI: " +:+ locator].
Proof.
  unfold GoogleVisionAPIFaceDetection.build_payload. destruct is_local.
  - unfold GoogleVisionAPIFaceDetection.build_payload_for_localfile, get_encoded_image.
    destruct (read_file W locator) as [bytes|e]; [|discriminate].
    cbn [Py.bind]. intros [= <- <-]. eexists. split; [reflexivity|].
    split; [reflexivity|]. exists bytes. now split.
  - unfold GoogleVisionAPIFaceDetection.build_payload_for_url.
    destruct (is_gcs_image_uri locator) as [gcs|e]; [|discriminate].
    cbn [Py.bind]. intros [= <- <-]. eexists. split; [reflexivity|].
    split; [reflexivity|]. exists gcs. split; [reflexivity|].
    now destruct gcs.
Qed.

Lemma vision_build_payload_witness :
  exists img,
    [ {| image := GcsImageUri "https://x/y"; feature_type := "FACE_DETECTION";
         maxResults := 4 |} ]
    = [ {| image := img; feature_type := "FACE_DETECTION"; maxResults := 4 |} ]
    /\ img = GcsImageUri "https://x/y"
    /\ exists gcs, is_gcs_image_uri "https://x/y" = Ok gcs
                   /\ ["Must be a GCS URI: https://x/y"]
                      = if gcs then [] else ["Must be a GCS URI: " +:+ "https://x/y"].
Proof.
  apply (vision_build_payload Sample.world "https://x/y" false
           ["Must be a GCS URI: https://x/y"]).
  reflexivity.
Defined.

(** ** Locator classification, further *)

(** X21.  The two classifications raise together, with the same
    exception, and no locator is both a local file and a [gs]
    reference. *)
Theorem classification_exclusive (uri : string) :
  (forall e, is_localfile uri = Raise e <-> is_gcs_image_uri uri = Raise e)
  /\ ~ (is_localfile uri = Ok true /\ is_gcs_image_uri uri = Ok true).
Proof.
  unfold is_localfile, is_gcs_image_uri.
  destruct (urllib_parse.urlparse uri) as [p|e0]; cbn [Py.bind].
  - split; [intros e; split; discriminate|].
    intros [[= Hl] [= Hg]].
    apply String.eqb_eq in Hl, Hg. rewrite Hl in Hg. discriminate Hg.
  - split; [intros e; split; intros [= <-]; reflexivity|].
    intros [[=] _].
Qed.

(** ** Whole-image provider, further *)

(** X22.  For a locator with a scheme the whole-image provider decodes
    the body of the HTTP answer and looks at nothing else: the status
    code and the reason of the answer do not change the outcome. *)
Theorem all_detection_ignores_status (W W' : World) (locator : string)
        (res res' : Response) :
  is_localfile locator = Ok false ->
  requests_get W locator = Ok res ->
  requests_get W' locator = Ok res' ->
  content res = content res' ->
  image_size W (content res) = image_size W' (content res') ->
  AllDetection.call W locator = AllDetection.call W' locator.
Proof.
  intros Hclass Hget Hget' Hcontent Hsize.
  unfold AllDetection.call, AllDetection.get_image_size_for_remote.
  rewrite Hclass. cbn [Py.bind]. rewrite Hget, Hget'. cbn [Py.bind].
  now rewrite Hsize.
Qed.

Lemma all_detection_ignores_status_witness :
  AllDetection.call Sample.world "https://x/y"
  = AllDetection.call Worlds.not_found "https://x/y".
Proof.
  apply (all_detection_ignores_status Sample.world Worlds.not_found "https://x/y"
           {| status_code := 200; reason := "OK"; content := "JFIF"; json := None |}
           {| status_code := 404; reason := "Not Found"; content := "JFIF";
              json := None |}); reflexivity.
Defined.

Lemma urlparse_raises (uri : string) (e : Py.exception) :
  urllib_parse.urlparse uri = Raise e -> e = ValueError "Invalid IPv6 URL".
Proof.
  unfold urllib_parse.urlparse. cbv zeta. intros H.
  repeat case_match; try discriminate H. now injection H as <-.
Qed.

Lemma is_localfile_foreign (uri : string) : foreign_errors_only (is_localfile uri).
Proof.
  unfold foreign_errors_only, is_localfile. intros e.
  destruct (urllib_parse.urlparse uri) as [p|e0] eqn:Hparse; cbn [Py.bind];
    [discriminate|].
  intros [= <-]. now rewrite (urlparse_raises uri e0 Hparse).
Qed.

(** X23.  The whole-image provider raises no exception of the script's
    own classes: when reading the file, fetching the URL and decoding
    the image raise none, an exception that leaves [__call__] is not an
    [AllDetectionError] (nor an [MSProjectoxfordDetectionError]). *)
Theorem all_detection_raises_no_own_error (W : World) (locator : string) :
  foreign_errors_only (read_file W locator) ->
  foreign_errors_only (requests_get W locator) ->
  (forall bytes, foreign_errors_only (image_size W bytes)) ->
  foreign_errors_only (AllDetection.call W locator).
Proof.
  intros Hread Hget Hsize e.
  unfold AllDetection.call.
  destruct (is_localfile locator) as [is_local|e0] eqn:Hclass; cbn [Py.bind].
  - destruct is_local.
    + unfold AllDetection.get_image_size_for_local.
      destruct (read_file W locator) as [fp|e1] eqn:Hfp; cbn [Py.bind].
      * destruct (image_size W fp) as [size|e2] eqn:Hs; cbn [Py.bind]; [discriminate|].
        intros [= <-]. exact (Hsize fp e2 Hs).
      * intros [= <-]. exact (Hread e1 eq_refl).
    + unfold AllDetection.get_image_size_for_remote.
      destruct (requests_get W locator) as [res|e1] eqn:Hres; cbn [Py.bind].
      * destruct (image_size W (content res)) as [size|e2] eqn:Hs; cbn [Py.bind];
          [discriminate|].
        intros [= <-]. exact (Hsize _ e2 Hs).
      * intros [= <-]. exact (Hget e1 eq_refl).
  - intros [= <-]. exact (is_localfile_foreign locator e0 Hclass).
Qed.

Lemma all_detection_raises_no_own_error_witness :
  foreign_errors_only (AllDetection.call Sample.world "missing.jpg").
Proof.
  apply (all_detection_raises_no_own_error Sample.world "missing.jpg").
  - intros e [= <-]. reflexivity.
  - intros e [=].
  - intros bytes e [=].
Defined.

(** ** Vision API provider: which exception, which log *)

(** X24.  What calling the Vision API provider does, case by case: a
    locator that does not parse raises the parser's exception; a local
    path whose file cannot be read raises the error of the read; in
    every other case [AttributeError] is raised, after an error line
    has been logged when the locator has a scheme other than [gs]. *)
Theorem vision_call_outcome (W : World) (self : GoogleVisionAPIFaceDetection.t)
        (locator : string) :
  GoogleVisionAPIFaceDetection.call W self locator
  = match urllib_parse.urlparse locator with
    | Raise e => ([], Raise e)
    | Ok parsed =>
        let failure :=
          Raise (AttributeError "'HttpRequest' object has no attribute 'exexute'") in
        if String.eqb (urllib_parse.scheme parsed) EmptyString
        then match read_file W locator with
             | Raise e => ([], Raise e)
             | Ok _ => ([], failure)
             end
        else if String.eqb (urllib_parse.scheme parsed) "gs"
             then ([], failure)
             else (["Must be a GCS URI: " +:+ locator], failure)
    end.
Proof.
  unfold GoogleVisionAPIFaceDetection.call, is_localfile.
  destruct (urllib_parse.urlparse locator) as [parsed|e] eqn:Hparse;
    cbn [Py.bind]; [|reflexivity].
  cbv zeta.
  destruct (String.eqb (urllib_parse.scheme parsed) EmptyString).
  - unfold GoogleVisionAPIFaceDetection.build_payload,
      GoogleVisionAPIFaceDetection.build_payload_for_localfile, get_encoded_image.
    destruct (read_file W locator) as [bytes|e]; reflexivity.
  - unfold GoogleVisionAPIFaceDetection.build_payload,
      GoogleVisionAPIFaceDetection.build_payload_for_url, is_gcs_image_uri.
    rewrite Hparse. cbn [Py.bind].
    destruct (String.eqb (urllib_parse.scheme parsed) "gs"); reflexivity.
Qed.

(** ** Entry point, further *)

Lemma main_configured (W : World) (args : Namespace)
      (gcp : GoogleVisionAPIFaceDetection.t) (param : gmap string string)
      (token : string) :
  GoogleVisionAPIFaceDetection.init W = Ok gcp ->
  pit_get W = Ok param -> param !! "API_TOKEN" = Some token ->
  main W args
  = match (if String.eqb (mode args) "ms"
           then Some (ms_utility {| MSProjectoxfordDetection.api_token := token |})
           else if String.eqb (mode args) "gcp" then Some (gcp_utility gcp)
                else None) with
    | None => ([], Raise (TypeError "'NoneType' object is not callable"))
    | Some detect =>
        let '(log, outcome) := call_detection W detect (target args) in
        (log,
         do result <- outcome;
         do url <- AkamaiCrop.call W result AkamaiCrop.defaults;
         Ok [url])
    end.
Proof.
  intros Hinit Hpit Htoken. unfold main, get_ms_param, Py.getitem.
  rewrite Hinit, Hpit. cbn [Py.bind]. rewrite Htoken.
  unfold query_detection, register_crop, register_detection, empty_components.
  cbn [detection_utilities].
  destruct (String.eqb_spec (mode args) "ms") as [Hm|Hm].
  - rewrite Hm, lookup_insert_eq. reflexivity.
  - rewrite lookup_insert_ne by congruence.
    destruct (String.eqb_spec (mode args) "gcp") as [Hg|Hg].
    + rewrite Hg, lookup_insert_eq. reflexivity.
    + rewrite lookup_insert_ne by congruence. rewrite lookup_empty. reflexivity.
Qed.

(** X25.  With both providers constructed, a mode other than [gcp] and
    [ms] selects no provider: [main] raises [TypeError] on calling
    [None], logs nothing and prints nothing; [akamai], the name under
    which the encoder is registered, is such a mode. *)
Theorem main_unknown_mode (W : World) (args : Namespace)
        (gcp : GoogleVisionAPIFaceDetection.t) (param : gmap string string)
        (token : string) :
  GoogleVisionAPIFaceDetection.init W = Ok gcp ->
  pit_get W = Ok param -> param !! "API_TOKEN" = Some token ->
  mode args <> "gcp" -> mode args <> "ms" ->
  main W args = ([], Raise (TypeError "'NoneType' object is not callable")).
Proof.
  intros Hinit Hpit Htoken Hg Hm.
  rewrite (main_configured W args gcp param token Hinit Hpit Htoken).
  apply String.eqb_neq in Hg, Hm. rewrite Hg, Hm. reflexivity.
Qed.

Lemma main_unknown_mode_witness :
  main Sample.world {| mode := "akamai"; target := "face.jpg"; crop := "akamai" |}
  = ([], Raise (TypeError "'NoneType' object is not callable")).
Proof.
  apply (main_unknown_mode Sample.world
           {| mode := "akamai"; target := "face.jpg"; crop := "akamai" |}
           {| GoogleVisionAPIFaceDetection.image_api := annotate Sample.world |}
           (<[ "API_TOKEN" := "dummy token" ]> ∅) "dummy token");
    try reflexivity; discriminate.
Defined.

Lemma vision_call_is_not_ok (W : World) (self : GoogleVisionAPIFaceDetection.t)
      (locator : string) :
  Py.is_ok (snd (GoogleVisionAPIFaceDetection.call W self locator)) = false.
Proof.
  unfold GoogleVisionAPIFaceDetection.call.
  destruct (is_localfile locator) as [is_local|e]; [|reflexivity].
  destruct (GoogleVisionAPIFaceDetection.build_payload W locator is_local)
    as [[log payload]|e]; [|reflexivity].
  cbn [snd]. now rewrite request_raises.
Qed.

(** X26.  In mode [gcp] the entry point prints nothing, in any world and
    for any target: the outcome is an exception. *)
Theorem main_gcp_never_prints (W : World) (locator encoder : string) :
  Py.is_ok (snd (main W {| mode := "gcp"; target := locator; crop := encoder |})) = false.
Proof.
  unfold main.
  destruct (GoogleVisionAPIFaceDetection.init W) as [gcp|e]; [|reflexivity].
  destruct (do param <- get_ms_param W; Py.getitem param "API_TOKEN")
    as [token|e]; [|reflexivity].
  unfold query_detection, register_crop, register_detection, empty_components.
  cbn [detection_utilities mode].
  rewrite lookup_insert_ne by discriminate. rewrite lookup_insert_eq.
  cbn [call_detection target].
  destruct (GoogleVisionAPIFaceDetection.call W gcp locator) as [log outcome] eqn:Hcall.
  cbn [snd]. pose proof (vision_call_is_not_ok W gcp locator) as Hfail.
  rewrite Hcall in Hfail. cbn [snd] in Hfail.
  destruct outcome; [discriminate Hfail|reflexivity].
Qed.

(** X27.  In mode [ms], for a target with a scheme: when both providers
    are constructed, the backend answers 200 with an answer whose points
    bound a rectangle, and the URL library parses the target, [main]
    logs nothing and prints one line, the target with the [crop] of that
    rectangle and [resize=*:*]. *)
Theorem main_ms_prints (W : World) (locator encoder : string)
        (gcp : GoogleVisionAPIFaceDetection.t) (param : gmap string string)
        (token : string) (res : Response) (decoded : ms_data)
        (points : list Coord) (start end_ : Coord) (f : furl.t) :
  GoogleVisionAPIFaceDetection.init W = Ok gcp ->
  pit_get W = Ok param -> param !! "API_TOKEN" = Some token ->
  is_localfile locator = Ok false ->
  requests_post W MSProjectoxfordDetection.endpoint
    (MSProjectoxfordDetection.build_headers
       {| MSProjectoxfordDetection.api_token := token |} false)
    (Text (json_dumps W (<[ "url" := locator ]> ∅))) = Ok res ->
  status_code res = 200 -> json res = Some decoded ->
  MSProjectoxfordDetectionResultFactory.get_coords decoded = Ok points ->
  AkamaiCrop.create_rect points = Ok (start, end_) ->
  furl_parse W locator = Ok f ->
  main W {| mode := "ms"; target := locator; crop := encoder |}
  = ([], Ok [ furl_url W
                (furl.set_arg
                   (furl.set_arg f "crop" (AkamaiCrop.crop_value start end_))
                   "resize" "*:*") ]).
Proof.
  intros Hinit Hpit Htoken Hclass Hpost Hstatus Hjson Hpoints Hrect Hf.
  rewrite (main_configured W _ gcp param token Hinit Hpit Htoken).
  cbn [mode target String.eqb Ascii.eqb Bool.eqb call_detection].
  rewrite (ms_call_answered W _ locator false _ res Hclass eq_refl Hpost).
  rewrite Hstatus, Hjson, Hpoints. cbn [Z.eqb Pos.eqb Py.bind].
  unfold AkamaiCrop.call. cbn [coords uri]. rewrite Hrect. cbn [Py.bind].
  unfold AkamaiCrop.build_uri. rewrite Hf. reflexivity.
Qed.

Lemma main_ms_prints_witness :
  main Sample.world
    {| mode := "ms"; target := "http://example.com/a.jpg"; crop := "akamai" |}
  = ([], Ok [ "http://example.com/a.jpg?crop=10:11%3B5,6&resize=*:*" ]).
Proof.
  apply (main_ms_prints Sample.world "http://example.com/a.jpg" "akamai"
           {| GoogleVisionAPIFaceDetection.image_api := annotate Sample.world |}
           (<[ "API_TOKEN" := "dummy token" ]> ∅) "dummy token"
           {| status_code := 200; reason := "OK"; content := "[...]";
              json := Some [ Sample.one_face ] |}
           [ Sample.one_face ]
           [ {| x := 5; y := 6 |}; {| x := 5; y := 26 |};
             {| x := 15; y := 26 |}; {| x := 15; y := 6 |} ]
           {| x := 5; y := 6 |} {| x := 15; y := 26 |}
           {| furl.base := "http://example.com/a.jpg"; furl.args := [] |});
    reflexivity.
Defined.

(** X28.  In mode [ms], when the backend answers 200 with an empty list
    of faces, [main] prints nothing and raises the [ValueError] of
    [min]: no face is reported as an exception, not as a URL. *)
Theorem main_ms_no_face (W : World) (locator encoder : string)
        (gcp : GoogleVisionAPIFaceDetection.t) (param : gmap string string)
        (token : string) (is_local : bool) (body : post_body) (res : Response) :
  GoogleVisionAPIFaceDetection.init W = Ok gcp ->
  pit_get W = Ok param -> param !! "API_TOKEN" = Some token ->
  is_localfile locator = Ok is_local ->
  MSProjectoxfordDetection.build_payload W locator is_local = Ok body ->
  requests_post W MSProjectoxfordDetection.endpoint
    (MSProjectoxfordDetection.build_headers
       {| MSProjectoxfordDetection.api_token := token |} is_local) body = Ok res ->
  status_code res = 200 -> json res = Some [] ->
  main W {| mode := "ms"; target := locator; crop := encoder |}
  = ([], Raise (ValueError "min() arg is an empty sequence")).
Proof.
  intros Hinit Hpit Htoken Hclass Hbody Hpost Hstatus Hjson.
  rewrite (main_configured W _ gcp param token Hinit Hpit Htoken).
  cbn [mode target String.eqb Ascii.eqb Bool.eqb call_detection].
  rewrite (ms_call_answered W _ locator is_local body res Hclass Hbody Hpost).
  rewrite Hstatus, Hjson. reflexivity.
Qed.

Lemma main_ms_no_face_witness :
  main Worlds.no_face {| mode := "ms"; target := "face.jpg"; crop := "akamai" |}
  = ([], Raise (ValueError "min() arg is an empty sequence")).
Proof.
  apply (main_ms_no_face Worlds.no_face "face.jpg" "akamai"
           {| GoogleVisionAPIFaceDetection.image_api := annotate Sample.world |}
           (<[ "API_TOKEN" := "dummy token" ]> ∅) "dummy token" true (Bytes "JFIF")
           {| status_code := 200; reason := "OK"; content := "[]"; json := Some [] |});
    reflexivity.
Defined.

(** X29.  Both providers are constructed before the mode is looked at:
    when the Vision API provider cannot be constructed, or the
    configuration cannot be read or has no [API_TOKEN], [main] raises
    that exception whatever the mode and the target, and prints
    nothing. *)
Theorem main_configuration_failure (W : World) (args : Namespace) (e : Py.exception) :
  (GoogleVisionAPIFaceDetection.init W = Raise e
   \/ (Py.is_ok (GoogleVisionAPIFaceDetection.init W) = true
       /\ (pit_get W = Raise e
           \/ exists param, pit_get W = Ok param /\ param !! "API_TOKEN" = None
                            /\ e = KeyError "API_TOKEN"))) ->
  main W args = ([], Raise e).
Proof.
  unfold main, get_ms_param, Py.getitem.
  intros [Hinit | [Hinit [Hpit | (param & Hpit & Htoken & ->)]]].
  - now rewrite Hinit.
  - destruct (GoogleVisionAPIFaceDetection.init W); [|discriminate Hinit].
    now rewrite Hpit.
  - destruct (GoogleVisionAPIFaceDetection.init W); [|discriminate Hinit].
    rewrite Hpit. cbn [Py.bind]. now rewrite Htoken.
Qed.

Lemma main_configuration_failure_witness :
  main Worlds.no_token
    {| mode := "gcp"; target := "gs://bucket/x"; crop := "akamai" |}
  = ([], Raise (KeyError "API_TOKEN")).
Proof.
  apply (main_configuration_failure Worlds.no_token). right.
  split; [reflexivity|]. right. exists ∅. now split.
Defined.

(** ** Project Oxford provider: where its own exception comes from *)

Lemma ms_get_coords_raises (data : ms_data) (e : Py.exception) :
  MSProjectoxfordDetectionResultFactory.get_coords data = Raise e ->
  exists key, e = KeyError key.
Proof.
  induction data as [|response data IH]; [discriminate|].
  rewrite ms_get_coords_cons.
  destruct (rectangle_of response) as [r|] eqn:Hr.
  - rewrite (rectangle_points response r Hr). cbn [Py.bind].
    destruct (MSProjectoxfordDetectionResultFactory.get_coords data) as [rest|e'];
      cbn [Py.bind]; [discriminate|].
    intros [= <-]. now apply IH.
  - destruct (rectangle_missing response Hr) as [key ->]. cbn [Py.bind].
    intros [= <-]. now exists key.
Qed.

(** X30.  When reading the file and posting raise no exception of the
    script's own classes, an exception of such a class that leaves the
    Project Oxford provider is the detection error of an answer whose
    status is not 200, carrying the text built from that answer. *)
Theorem ms_call_own_error (W : World) (self : MSProjectoxfordDetection.t)
        (locator : string) (e : Py.exception) :
  foreign_errors_only (read_file W locator) ->
  (forall headers body,
      foreign_errors_only
        (requests_post W MSProjectoxfordDetection.endpoint headers body)) ->
  MSProjectoxfordDetection.call W self locator = Raise e ->
  Py.declared_by_script e = true ->
  exists headers body res,
    requests_post W MSProjectoxfordDetection.endpoint headers body = Ok res
    /\ status_code res <> 200
    /\ e = MSProjectoxfordDetectionError (MSProjectoxfordDetection.failure_message res).
Proof.
  intros Hread Hpost Hcall Hown.
  unfold MSProjectoxfordDetection.call in Hcall.
  destruct (is_localfile locator) as [is_local|e0] eqn:Hclass; cbn [Py.bind] in Hcall.
  2:{ injection Hcall as <-.
      rewrite (is_localfile_foreign locator e0 Hclass) in Hown. discriminate Hown. }
  destruct (MSProjectoxfordDetection.build_payload W locator is_local)
    as [body|e1] eqn:Hbody; cbn [Py.bind] in Hcall.
  2:{ injection Hcall as <-.
      unfold MSProjectoxfordDetection.build_payload,
        MSProjectoxfordDetection.build_payload_for_localfile,
        MSProjectoxfordDetection.build_payload_for_url in Hbody.
      destruct is_local; [|discriminate Hbody].
      destruct (read_file W locator) as [b|e2] eqn:Hb; [discriminate Hbody|].
      injection Hbody as <-. rewrite (Hread e2 eq_refl) in Hown. discriminate Hown. }
  unfold MSProjectoxfordDetection.request in Hcall.
  destruct (requests_post W MSProjectoxfordDetection.endpoint
              (MSProjectoxfordDetection.build_headers self is_local) body)
    as [res|e2] eqn:Hres; cbn [Py.bind] in Hcall.
  2:{ injection Hcall as <-. rewrite (Hpost _ _ e2 Hres) in Hown. discriminate Hown. }
  destruct (Z.eqb_spec (status_code res) 200) as [Hok|Hne]; cbn [negb Py.bind] in Hcall.
  - destruct (json res) as [decoded|]; cbn [Py.bind] in Hcall.
    + unfold MSProjectoxfordDetectionResultFactory.call in Hcall.
      destruct (MSProjectoxfordDetectionResultFactory.get_coords decoded)
        as [points|e3] eqn:Hpoints; cbn [Py.bind] in Hcall; [discriminate Hcall|].
      injection Hcall as <-.
      destruct (ms_get_coords_raises decoded e3 Hpoints) as [key ->].
      discriminate Hown.
    + injection Hcall as <-. discriminate Hown.
  - injection Hcall as <-. eexists _, _, res. repeat split; eassumption.
Qed.

Lemma ms_call_own_error_witness :
  exists headers body res,
    requests_post Sample.world MSProjectoxfordDetection.endpoint headers body = Ok res
    /\ status_code res <> 200
    /\ MSProjectoxfordDetectionError
         "detection failed: status=401, reason=Access Denied, content=b'invalid key'"
       = MSProjectoxfordDetectionError (MSProjectoxfordDetection.failure_message res).
Proof.
  apply (ms_call_own_error Sample.world
           {| MSProjectoxfordDetection.api_token := "expired token" |}
           "http://example.com/a.jpg").
  - intros e [= <-]. reflexivity.
  - intros headers body e. unfold Sample.world, requests_post, Sample.post.
    repeat case_match; discriminate.
  - reflexivity.
  - reflexivity.
Defined.
